(** * brave_web_search: a shallow embedding of [main.py]

    The command-line client reads one credential from the environment,
    parses its flags, performs one HTTP GET and renders the decoded JSON
    answer.  Python values are modelled the way the interpreter has them:
    a [str] is a sequence of code points, a decoded JSON document is a
    tree whose objects keep their keys in the order received, a method
    call on a value of the wrong type raises.  Effects (the two output
    streams, the network call, the saved file, the exit code) are an
    explicit trace in a small monad. *)

From Stdlib Require Import ZArith NArith List String Ascii Bool Lia.
From Stdlib Require Import DecimalString.
From Stdlib Require Import Floats.SpecFloat.
Import ListNotations.

Set Implicit Arguments.
Local Set Warnings "-register-all".

(** ** Python strings *)

(** A [str] is a sequence of Unicode code points; [len] counts them. *)
Definition codepoint := N.
Definition pystr := list codepoint.

(** String literals of the source, all ASCII. *)
Definition lit (s : string) : pystr :=
  map N_of_ascii (list_ascii_of_string s).

Fixpoint pystr_eqb (a b : pystr) : bool :=
  match a, b with
  | [], [] => true
  | x :: a', y :: b' => N.eqb x y && pystr_eqb a' b'
  | _, _ => false
  end.

Definition newline : pystr := [10%N].

(** [sep.join(parts)] *)
Fixpoint join (sep : pystr) (parts : list pystr) : pystr :=
  match parts with
  | [] => []
  | [p] => p
  | p :: rest => p ++ sep ++ join sep rest
  end.

(** [prefix.startswith]-style test and [needle in haystack] on strings. *)
Fixpoint starts_with (p s : pystr) : bool :=
  match p, s with
  | [], _ => true
  | _ :: _, [] => false
  | a :: p', b :: s' => N.eqb a b && starts_with p' s'
  end.

Fixpoint str_contains (needle hay : pystr) : bool :=
  starts_with needle hay ||
  match hay with
  | [] => false
  | _ :: hay' => str_contains needle hay'
  end.

(** The code points for which [str.isspace] holds: the separators of
    [str.split()] called without an argument. *)
Definition is_space (c : codepoint) : bool :=
  ((9 <=? c) && (c <=? 13) || (28 <=? c) && (c <=? 32) ||
   (c =? 133) || (c =? 160) || (c =? 5760) ||
   (8192 <=? c) && (c <=? 8202) ||
   (c =? 8232) || (c =? 8233) || (c =? 8239) || (c =? 8287) ||
   (c =? 12288))%N.

(** [s.split()]: the maximal runs of non-whitespace, in order.  [w] is the
    word being read. *)
Fixpoint split_from (w : pystr) (s : pystr) : list pystr :=
  match s with
  | [] => match w with [] => [] | _ => [w] end
  | c :: s' =>
      if is_space c
      then match w with
           | [] => split_from [] s'
           | _ => w :: split_from [] s'
           end
      else split_from (w ++ [c]) s'
  end.

Definition split (s : pystr) : list pystr := split_from [] s.

(** [str(n)] for an integer. *)
Definition str_of_Z (z : Z) : pystr :=
  lit (NilZero.string_of_int (Z.to_int z)).

(** The format specification [:>w]: right-aligned in [w] columns. *)
Definition rjust (w : nat) (s : pystr) : pystr :=
  repeat 32%N (w - List.length s) ++ s.

(** ** Decoded JSON documents *)

(** What [json.loads] produces: [None], [bool], [int], [float], [str],
    [list] and [dict].  A [dict] keeps its keys in insertion order. *)
Inductive jval : Type :=
| JNull
| JBool (b : bool)
| JInt (z : Z)
| JFloat (f : spec_float)
| JStr (s : pystr)
| JArr (items : list jval)
| JObj (fields : list (pystr * jval)).

Definition dict := list (pystr * jval).

(** Truth value testing, as [if v:], [not v] and [v or w] apply it. *)
Definition truthy (v : jval) : bool :=
  match v with
  | JNull => false
  | JBool b => b
  | JInt z => negb (z =? 0)%Z
  | JFloat (S754_zero _) => false
  | JFloat _ => true
  | JStr s => match s with [] => false | _ => true end
  | JArr l => match l with [] => false | _ => true end
  | JObj d => match d with [] => false | _ => true end
  end.

Fixpoint lookup (k : pystr) (d : dict) : option jval :=
  match d with
  | [] => None
  | (k', v) :: d' => if pystr_eqb k k' then Some v else lookup k d'
  end.

(** [k in d] *)
Definition has_key (k : pystr) (d : dict) : bool :=
  match lookup k d with Some _ => true | None => false end.

(** [d.get(k, default)] *)
Definition dict_get (d : dict) (k : pystr) (default : jval) : jval :=
  match lookup k d with Some v => v | None => default end.

(** ** Exceptions *)

Inductive exn : Type :=
| AttributeError
| TypeError
| KeyError
| OSError (msg : pystr).

Inductive result (A : Type) : Type :=
| Ok (a : A)
| Raise (e : exn).
Arguments Ok {A} a.
Arguments Raise {A} e.

Definition rbind {A B} (r : result A) (f : A -> result B) : result B :=
  match r with
  | Ok a => f a
  | Raise e => Raise e
  end.

Declare Scope result_scope.
Delimit Scope result_scope with result.
Notation "x <- r ;; k" := (rbind r (fun x => k))
  (at level 61, r at next level, right associativity) : result_scope.

(** [v.get(k, default)] on an arbitrary value: only a [dict] has the
    method. *)
Definition py_get (v : jval) (k : pystr) (default : jval) : result jval :=
  match v with
  | JObj d => Ok (dict_get d k default)
  | _ => Raise AttributeError
  end.

(** [a or b]: [b] is evaluated only when [a] is falsy. *)
Definition por (a b : result jval) : result jval :=
  match a with
  | Ok v => if truthy v then Ok v else b
  | Raise e => Raise e
  end.

(** [k in v] for a string [k] and an arbitrary value [v]. *)
Definition py_in (k : pystr) (v : jval) : result bool :=
  match v with
  | JObj d => Ok (has_key k d)
  | JArr l =>
      Ok (existsb (fun x => match x with JStr s => pystr_eqb k s | _ => false end) l)
  | JStr s => Ok (str_contains k s)
  | _ => Raise TypeError
  end.

(** [v[k]] for a string [k]: a list or a string cannot be indexed by a
    string. *)
Definition py_index (v : jval) (k : pystr) : result jval :=
  match v with
  | JObj d => match lookup k d with Some x => Ok x | None => Raise KeyError end
  | _ => Raise TypeError
  end.

Definition is_dict (v : jval) : bool :=
  match v with JObj _ => true | _ => false end.

Definition is_list (v : jval) : bool :=
  match v with JArr _ => true | _ => false end.

(** ** [extract_web_results] *)

Definition extract_web_results (resp_json : jval) : result jval :=
  (has_web <- py_in (lit "web") resp_json ;;
   nested <- (if has_web
              then (w <- py_index resp_json (lit "web") ;; Ok (is_dict w))
              else Ok false) ;;
   if (nested : bool)
   then (w <- py_index resp_json (lit "web") ;;
         por (py_get w (lit "results") (JArr [])) (Ok (JArr [])))
   else por (py_get resp_json (lit "results") (JArr [])) (Ok (JArr [])))%result.

(** The rule as the specification words it: the [results] field of the
    selected document when it is a list, an empty list when it is absent
    or not a list. *)
Module Spec.

Definition results_or_empty (d : dict) : jval :=
  match lookup (lit "results") d with
  | Some (JArr l) => JArr l
  | _ => JArr []
  end.

Definition extraction_rule (d : dict) : jval :=
  match lookup (lit "web") d with
  | Some (JObj w) => results_or_empty w
  | _ => results_or_empty d
  end.

End Spec.

(** What the code selects and returns. *)
Definition selected (d : dict) : dict :=
  match lookup (lit "web") d with
  | Some (JObj w) => w
  | _ => d
  end.

Definition results_or_default (d : dict) : jval :=
  match lookup (lit "results") d with
  | Some v => if truthy v then v else JArr []
  | None => JArr []
  end.

(** ** The interpreter and the libraries

    What the program calls and does not define: conversions of the
    built-in types, [json.dumps], [textwrap.fill] and the tokenizer of
    [argparse].  The program is modelled over any implementation of
    them. *)

(** The fourteen destinations declared in [parse_args]. *)
Inductive dest : Type :=
| Dq | Dcount | Doffset | Dcountry | Dlang | Dsafesearch | Dfreshness
| Dspellcheck | Dextra_snippets | Dsummary | Djson | Dtable | Dtimeout
| Dsave.

(** What [argparse] makes of the command line before it converts and
    stores: the options it recognised, left to right, each with the
    argument string attached to it (if any), a request for help, or a
    token it refuses (unknown or ambiguous option). *)
Inductive token : Type :=
| TOpt (d : dest) (arg : option pystr)
| THelp
| TBad (msg : pystr).

Record Library : Type := {
  (** [int(s)] and [float(s)]; [None] when they raise [ValueError] *)
  py_int : pystr -> option Z;
  py_float : pystr -> option spec_float;
  (** [str(v)] for a value that is not a string *)
  py_str : jval -> pystr;
  (** [json.dumps(v, ensure_ascii=e, indent=i)] *)
  json_dumps : bool -> Z -> jval -> pystr;
  (** [textwrap.fill(s, width=w)] *)
  textwrap_fill : pystr -> Z -> pystr;
  (** the option strings [argparse] recognises, and the arguments it
      leaves over *)
  argparse_scan : list pystr -> list token * list pystr;
  (** the usage message written with an error, and the help text *)
  argparse_usage : pystr -> pystr;
  argparse_help : pystr
}.

(** ** Command-line options *)

(** The attributes of the object [parse_args] returns.  [q], [freshness]
    and [save] are [None] until an option stores a string. *)
Module Namespace.
Record t : Type := Build {
  q : option pystr;
  count : Z;
  offset : Z;
  country : pystr;
  lang : pystr;
  safesearch : Z;
  freshness : option pystr;
  spellcheck : Z;
  extra_snippets : Z;
  summary : Z;
  json : bool;
  table : bool;
  timeout : spec_float;
  save : option pystr
}.

(** [setattr(namespace, dest, value)], one per destination. *)
Definition set_q v '(Build _ b c d e f g h i j k l m n) := Build v b c d e f g h i j k l m n.
Definition set_count v '(Build a _ c d e f g h i j k l m n) := Build a v c d e f g h i j k l m n.
Definition set_offset v '(Build a b _ d e f g h i j k l m n) := Build a b v d e f g h i j k l m n.
Definition set_country v '(Build a b c _ e f g h i j k l m n) := Build a b c v e f g h i j k l m n.
Definition set_lang v '(Build a b c d _ f g h i j k l m n) := Build a b c d v f g h i j k l m n.
Definition set_safesearch v '(Build a b c d e _ g h i j k l m n) := Build a b c d e v g h i j k l m n.
Definition set_freshness v '(Build a b c d e f _ h i j k l m n) := Build a b c d e f v h i j k l m n.
Definition set_spellcheck v '(Build a b c d e f g _ i j k l m n) := Build a b c d e f g v i j k l m n.
Definition set_extra_snippets v '(Build a b c d e f g h _ j k l m n) := Build a b c d e f g h v j k l m n.
Definition set_summary v '(Build a b c d e f g h i _ k l m n) := Build a b c d e f g h i v k l m n.
Definition set_json v '(Build a b c d e f g h i j _ l m n) := Build a b c d e f g h i j v l m n.
Definition set_table v '(Build a b c d e f g h i j k _ m n) := Build a b c d e f g h i j k v m n.
Definition set_timeout v '(Build a b c d e f g h i j k l _ n) := Build a b c d e f g h i j k l v n.
Definition set_save v '(Build a b c d e f g h i j k l m _) := Build a b c d e f g h i j k l m v.
End Namespace.

(** Truth value of an attribute that is [None] or a string. *)
Definition given (o : option pystr) : bool :=
  match o with
  | Some (_ :: _) => true
  | _ => false
  end.

(** ** Request parameters *)

Inductive pval : Type :=
| PNone
| PStr (s : pystr)
| PInt (z : Z).

Definition of_attr (o : option pystr) : pval :=
  match o with Some s => PStr s | None => PNone end.

(** The parameter mapping: a [dict] in insertion order. *)
Definition params := list (pystr * pval).

(** [d[k] = v] *)
Fixpoint dict_set (k : pystr) (v : pval) (d : params) : params :=
  match d with
  | [] => [(k, v)]
  | (k', v') :: d' =>
      if pystr_eqb k k' then (k, v) :: d' else (k', v') :: dict_set k v d'
  end.

Definition keys (d : params) : list pystr := map fst d.

Definition SAFES_SEARCH_MAP : list (Z * pystr) :=
  [(0, lit "off"); (1, lit "moderate"); (2, lit "strict")]%Z.

(** [SAFES_SEARCH_MAP.get(level, default)] *)
Definition map_get (m : list (Z * pystr)) (level : Z) (default : pystr) : pystr :=
  match find (fun kv => Z.eqb level (fst kv)) m with
  | Some kv => snd kv
  | None => default
  end.

Definition build_params (args : Namespace.t) : params :=
  let params :=
    [ (lit "q", of_attr (Namespace.q args));
      (lit "count", PInt (Namespace.count args));
      (lit "offset", PInt (Namespace.offset args));
      (lit "country", PStr (Namespace.country args));
      (lit "search_lang", PStr (Namespace.lang args));
      (lit "safesearch",
       PStr (map_get SAFES_SEARCH_MAP (Namespace.safesearch args) (lit "off")));
      (lit "spellcheck", PInt (Namespace.spellcheck args)) ] in
  let params :=
    if given (Namespace.freshness args)
    then dict_set (lit "freshness") (of_attr (Namespace.freshness args)) params
    else params in
  let params :=
    if negb (Namespace.extra_snippets args =? 0)%Z
    then dict_set (lit "extra_snippets") (PInt 1) params
    else params in
  let params :=
    if negb (Namespace.summary args =? 0)%Z
    then dict_set (lit "summary") (PInt 1) params
    else params in
  params.

(** ** The outside world and the trace of a run *)

Definition API_URL : pystr :=
  lit "https://api.search.brave.com/res/v1/web/search".

Record Request : Type := {
  req_url : pystr;
  req_headers : list (pystr * pystr);
  req_params : params;
  req_timeout : spec_float
}.

(** The attributes of a [requests.Response] the program reads;
    [decoded] is what [r.json()] gives: the document, or the message of
    the decoding error. *)
Record Response : Type := {
  status_code : Z;
  reason : pystr;
  url : pystr;
  text : pystr;
  decoded : pystr + jval
}.

(** [requests.get] either raises (connection, DNS, timeout, too many
    redirects: an exception that is not an [HTTPError], with its text) or
    returns the response. *)
Inductive get_result : Type :=
| GetRaised (msg : pystr)
| GetReturned (r : Response).

Record World : Type := {
  (** [os.getenv("BRAVE_SEARCH_API_KEY")] *)
  getenv : option pystr;
  (** [sys.argv[1:]] *)
  argv : list pystr;
  (** the network, as [requests.get] sees it *)
  send : Request -> get_result;
  (** [open(path, "w")]: [None] when it opens, the text of the
      [OSError] otherwise *)
  open_w : pystr -> option pystr
}.

Inductive stream : Type := Stdout | Stderr.

Inductive event : Type :=
| Write (to : stream) (data : pystr)
| HttpGet (rq : Request)
| FileWrite (path encoding content : pystr).

(** How the process ends: [sys.exit(code)] (returning from [main] is
    exit code 0), or an exception nobody catches (the interpreter then
    prints the traceback and the exit code is 1). *)
Inductive outcome : Type :=
| Exit (code : Z)
| Uncaught (e : exn).

Inductive step (A : Type) : Type :=
| Next (a : A)
| Stop (o : outcome).
Arguments Next {A} a.
Arguments Stop {A} o.

(** A computation with effects: the events it caused, in order, and
    either its value or the end of the process. *)
Definition proc (A : Type) : Type := (list event * step A)%type.

Definition pret {A} (a : A) : proc A := ([], Next a).

Definition pbind {A B} (c : proc A) (f : A -> proc B) : proc B :=
  match c with
  | (t, Next a) => let (t', r) := f a in (t ++ t', r)
  | (t, Stop o) => (t, Stop o)
  end.

Declare Scope proc_scope.
Delimit Scope proc_scope with proc.
Notation "x <- c ;; k" := (pbind c (fun x => k))
  (at level 61, c at next level, right associativity) : proc_scope.
Notation "c ;; k" := (pbind c (fun _ => k))
  (at level 61, right associativity) : proc_scope.

Definition emit (e : event) : proc unit := ([e], Next tt).

(** [print(s, file=to)] *)
Definition print (to : stream) (s : pystr) : proc unit :=
  emit (Write to (s ++ newline)).

(** [sys.exit(code)] *)
Definition sys_exit {A} (code : Z) : proc A := ([], Stop (Exit code)).

(** A call that may raise, outside any [try]. *)
Definition call {A} (r : result A) : proc A :=
  match r with
  | Ok a => pret a
  | Raise e => ([], Stop (Uncaught e))
  end.

Definition trace {A} (c : proc A) : list event := fst c.

(** The end of the process whose [main] is [c]. *)
Definition ending (c : proc unit) : outcome :=
  match snd c with
  | Next _ => Exit 0
  | Stop o => o
  end.

Section Program.

Variable lib : Library.

(** The conversion an f-string applies to a field without a format
    specification. *)
Definition py_format (v : jval) : pystr :=
  match v with
  | JStr s => s
  | _ => py_str lib v
  end.

(** [v.split()]: a method of [str] only. *)
Definition py_split (v : jval) : result (list pystr) :=
  match v with
  | JStr s => Ok (split s)
  | _ => Raise AttributeError
  end.

(** Iteration over a value, as [enumerate] does it. *)
Definition py_iter (v : jval) : result (list jval) :=
  match v with
  | JArr l => Ok l
  | JStr s => Ok (map (fun c => JStr [c]) s)
  | JObj d => Ok (map (fun kv => JStr (fst kv)) d)
  | _ => Raise TypeError
  end.

(** ** [compact_table] *)

(** [snippet[:157] + "..."] when [len(snippet) > 160]. *)
Definition truncate (snippet : pystr) : pystr :=
  if (160 <? Z.of_nat (List.length snippet))%Z
  then firstn 157 snippet ++ lit "..."
  else snippet.

(** The three projections of an item, each with its fallbacks. *)
Definition item_title (item : jval) : result jval :=
  por (py_get item (lit "title") JNull)
      (por (source <- py_get item (lit "source") (JObj []) ;;
            py_get source (lit "title") JNull)%result
           (Ok (JStr []))).

Definition item_url (item : jval) : result jval :=
  por (py_get item (lit "url") JNull)
      (por (py_get item (lit "link") JNull) (Ok (JStr []))).

Definition item_snippet (item : jval) : result jval :=
  por (py_get item (lit "description") JNull)
      (por (py_get item (lit "snippet") JNull) (Ok (JStr []))).

(** The body of the loop: the block appended to [lines] for item [i]. *)
Definition table_block (i : nat) (item : jval) : result pystr :=
  (title <- item_title item ;;
   url <- item_url item ;;
   snippet <- item_snippet item ;;
   words <- py_split snippet ;;
   let snippet := truncate (join (lit " ") words) in
   let wrapped := textwrap_fill lib snippet 92 in
   Ok (rjust 2 (str_of_Z (Z.of_nat i)) ++ lit ". " ++ py_format title ++
       newline ++ lit "    " ++ py_format url ++
       newline ++ lit "    " ++ wrapped))%result.

Fixpoint table_blocks (i : nat) (items : list jval) : result (list pystr) :=
  match items with
  | [] => Ok []
  | item :: rest =>
      (block <- table_block i item ;;
       blocks <- table_blocks (S i) rest ;;
       Ok (block :: blocks))%result
  end.

Definition compact_table (web_results : jval) : result pystr :=
  (items <- py_iter web_results ;;
   lines <- table_blocks 1 items ;;
   Ok (join newline lines))%result.

(** ** [parse_args] *)

(** The namespace before any option is read: the declared defaults
    ([15.0] is [8444249301319680 * 2^-49]). *)
Definition defaults : Namespace.t :=
  {| Namespace.q := None;
     Namespace.count := 10;
     Namespace.offset := 0;
     Namespace.country := lit "us";
     Namespace.lang := lit "en";
     Namespace.safesearch := 0;
     Namespace.freshness := None;
     Namespace.spellcheck := 1;
     Namespace.extra_snippets := 0;
     Namespace.summary := 0;
     Namespace.json := false;
     Namespace.table := false;
     Namespace.timeout := S754_finite false 8444249301319680 (-49);
     Namespace.save := None |}.

(** [type=int], with or without [choices]. *)
Definition as_int (choices : option (list Z)) (s : pystr) : pystr + Z :=
  match py_int lib s with
  | None => inl (lit "invalid int value")
  | Some n =>
      match choices with
      | None => inr n
      | Some cs =>
          if existsb (Z.eqb n) cs then inr n else inl (lit "invalid choice")
      end
  end.

(** A string argument restricted by [choices]. *)
Definition as_choice (choices : list pystr) (s : pystr) : pystr + pystr :=
  if existsb (pystr_eqb s) choices then inr s else inl (lit "invalid choice").

Definition as_float (s : pystr) : pystr + spec_float :=
  match py_float lib s with
  | None => inl (lit "invalid float value")
  | Some f => inr f
  end.

Definition and_then {A} (r : pystr + A) (f : A -> Namespace.t)
  : pystr + Namespace.t :=
  match r with
  | inl msg => inl msg
  | inr a => inr (f a)
  end.

(** One [add_argument] line each: convert the argument string, check it
    against the choices, store it.  The two [store_true] switches take no
    argument; every other option takes exactly one. *)
Definition store (d : dest) (arg : option pystr) (ns : Namespace.t)
  : pystr + Namespace.t :=
  match d, arg with
  | Djson, None => inr (Namespace.set_json true ns)
  | Dtable, None => inr (Namespace.set_table true ns)
  | Djson, Some _ | Dtable, Some _ => inl (lit "ignored explicit argument")
  | _, None => inl (lit "expected one argument")
  | Dq, Some s => inr (Namespace.set_q (Some s) ns)
  | Dcount, Some s =>
      and_then (as_int None s) (fun n => Namespace.set_count n ns)
  | Doffset, Some s =>
      and_then (as_int None s) (fun n => Namespace.set_offset n ns)
  | Dcountry, Some s => inr (Namespace.set_country s ns)
  | Dlang, Some s => inr (Namespace.set_lang s ns)
  | Dsafesearch, Some s =>
      and_then (as_int (Some [0; 1; 2]%Z) s)
               (fun n => Namespace.set_safesearch n ns)
  | Dfreshness, Some s =>
      and_then (as_choice [lit "pd"; lit "pw"; lit "pm"; lit "py"] s)
               (fun v => Namespace.set_freshness (Some v) ns)
  | Dspellcheck, Some s =>
      and_then (as_int (Some [0; 1]%Z) s)
               (fun n => Namespace.set_spellcheck n ns)
  | Dextra_snippets, Some s =>
      and_then (as_int (Some [0; 1]%Z) s)
               (fun n => Namespace.set_extra_snippets n ns)
  | Dsummary, Some s =>
      and_then (as_int (Some [0; 1]%Z) s)
               (fun n => Namespace.set_summary n ns)
  | Dtimeout, Some s =>
      and_then (as_float s) (fun f => Namespace.set_timeout f ns)
  | Dsave, Some s => inr (Namespace.set_save (Some s) ns)
  end.

Inductive parsed : Type :=
| Parsed (ns : Namespace.t) (seen_q : bool)
| HelpRequested
| UsageError (msg : pystr).

Definition is_q (d : dest) : bool :=
  match d with Dq => true | _ => false end.

(** The options are handled left to right; the first error ends the
    parse, and so does a request for help. *)
Fixpoint consume (toks : list token) (ns : Namespace.t) (seen_q : bool)
  : parsed :=
  match toks with
  | [] => Parsed ns seen_q
  | THelp :: _ => HelpRequested
  | TBad msg :: _ => UsageError msg
  | TOpt d arg :: rest =>
      match store d arg ns with
      | inl msg => UsageError msg
      | inr ns' => consume rest ns' (seen_q || is_q d)
      end
  end.

(** [parser.error(msg)]: usage and message on the error stream, exit
    status 2. *)
Definition usage_error {A} (msg : pystr) : proc A :=
  (emit (Write Stderr (argparse_usage lib msg)) ;; sys_exit 2)%proc.

Definition parse_args (argv : list pystr) : proc Namespace.t :=
  let (toks, extras) := argparse_scan lib argv in
  match consume toks defaults false with
  | HelpRequested =>
      (emit (Write Stdout (argparse_help lib)) ;; sys_exit 0)%proc
  | UsageError msg => usage_error msg
  | Parsed ns seen_q =>
      if negb seen_q
      then usage_error (lit "the following arguments are required: --q")
      else match extras with
           | [] => pret ns
           | _ => usage_error (lit "unrecognized arguments: " ++
                               join (lit " ") extras)
           end
  end.

(** ** [main] *)

(** [r.raise_for_status()]: the text of the [HTTPError] it raises, if
    any. *)
Definition raise_for_status (r : Response) : option pystr :=
  let s := status_code r in
  if ((400 <=? s) && (s <? 500))%Z
  then Some (str_of_Z s ++ lit " Client Error: " ++ reason r ++
             lit " for url: " ++ url r)
  else if ((500 <=? s) && (s <? 600))%Z
  then Some (str_of_Z s ++ lit " Server Error: " ++ reason r ++
             lit " for url: " ++ url r)
  else None.

(** Lines 88 to 91: the credential. *)
Definition main_credential (w : World) : proc pystr :=
  match getenv w with
  | Some (c :: k) => pret (c :: k)
  | _ =>
      (print Stderr (lit "Error: BRAVE_SEARCH_API_KEY is not set") ;;
       sys_exit 1)%proc
  end.

(** Lines 97 to 106: the request, inside [try]. *)
Definition main_request (w : World) (rq : Request) : proc jval :=
  (emit (HttpGet rq) ;;
   match send w rq with
   | GetRaised msg =>
       print Stderr (lit "Request failed: " ++ msg) ;; sys_exit 3
   | GetReturned r =>
       match raise_for_status r with
       | Some e =>
           print Stderr (lit "HTTP error: " ++ e ++ lit " - " ++ text r) ;;
           sys_exit 2
       | None =>
           match decoded r with
           | inl msg =>
               print Stderr (lit "Request failed: " ++ msg) ;; sys_exit 3
           | inr data => pret data
           end
       end
   end)%proc.

(** Lines 108 to 110: the optional copy on disk. *)
Definition main_save (w : World) (args : Namespace.t) (data : jval)
  : proc unit :=
  if given (Namespace.save args)
  then match Namespace.save args with
       | Some path =>
           match open_w w path with
           | Some msg => call (Raise (OSError msg))
           | None =>
               emit (FileWrite path (lit "utf-8") (json_dumps lib false 2 data))
           end
       | None => pret tt
       end
  else pret tt.

(** Lines 118 to 123: the body of [if args.table:]. *)
Definition main_table (data : jval) : proc unit :=
  (results <- call (extract_web_results data) ;;
   if negb (truthy results)
   then print Stdout (lit "No web results in response")
   else (table <- call (compact_table results) ;;
         print Stdout table))%proc.

(** Lines 112 to 123: what is printed. *)
Definition main_render (args : Namespace.t) (data : jval) : proc unit :=
  ((if Namespace.json args || negb (Namespace.table args)
    then (print Stdout (json_dumps lib false 2 data) ;;
          if Namespace.table args
          then print Stdout (newline ++ lit "---" ++ newline)
          else pret tt)
    else pret tt) ;;
   if Namespace.table args then main_table data else pret tt)%proc.

Definition main (w : World) : proc unit :=
  (api_key <- main_credential w ;;
   args <- parse_args (argv w) ;;
   let headers := [ (lit "X-Subscription-Token", api_key);
                    (lit "Accept", lit "application/json") ] in
   let params := build_params args in
   data <- main_request w {| req_url := API_URL;
                             req_headers := headers;
                             req_params := params;
                             req_timeout := Namespace.timeout args |} ;;
   main_save w args data ;;
   main_render args data)%proc.

End Program.

(** ** Vocabulary of the statements *)

(** [k in d] for the parameter mapping. *)
Definition key_in (k : pystr) (d : params) : bool :=
  existsb (pystr_eqb k) (keys d).

(** The keys every request carries, in the order of the source. *)
Definition always_keys : list pystr :=
  [ lit "q"; lit "count"; lit "offset"; lit "country"; lit "search_lang";
    lit "safesearch"; lit "spellcheck" ].

Definition when (b : bool) (k : pystr) : list pystr :=
  if b then [k] else [].

(** The three safe-search levels. *)
Definition level_ok (n : Z) : Prop := In n [0; 1; 2]%Z.

(** An argument of [--safesearch] outside the choices, or not an
    integer at all. *)
Definition bad_level (lib : Library) (s : pystr) : Prop :=
  forall n, py_int lib s = Some n -> ~ level_ok n.


(** The request [main] sends for a credential and parsed options. *)
Definition the_request (api_key : pystr) (args : Namespace.t) : Request :=
  {| req_url := API_URL;
     req_headers := [ (lit "X-Subscription-Token", api_key);
                      (lit "Accept", lit "application/json") ];
     req_params := build_params args;
     req_timeout := Namespace.timeout args |}.

(** The process ends without a status of its own choosing: it returns,
    or an exception propagates. *)
Definition unforced {A} (c : proc A) : Prop :=
  match snd c with
  | Next _ => True
  | Stop (Uncaught _) => True
  | Stop (Exit _) => False
  end.

Definition is_file_write (e : event) : bool :=
  match e with FileWrite _ _ _ => true | _ => false end.

Definition is_stdout (e : event) : bool :=
  match e with Write Stdout _ => true | _ => false end.

Definition is_str (v : jval) : bool :=
  match v with JStr _ => true | _ => false end.

(** The title lookup goes through: the item has a truthy [title], or
    its [source] is absent or a document. *)
Definition title_ok (d : dict) : bool :=
  truthy (dict_get d (lit "title") JNull) ||
  is_dict (dict_get d (lit "source") (JObj [])).

(** The value [.split()] is called on: [description] if truthy, else
    [snippet] if truthy, else the empty string. *)
Definition snippet_of (d : dict) : jval :=
  let a := dict_get d (lit "description") JNull in
  if truthy a then a
  else let b := dict_get d (lit "snippet") JNull in
       if truthy b then b else JStr [].

Definition url_of (d : dict) : jval :=
  let a := dict_get d (lit "url") JNull in
  if truthy a then a
  else let b := dict_get d (lit "link") JNull in
       if truthy b then b else JStr [].

(** The title shown: [title] if truthy, else the [title] of [source] if
    truthy, else the empty string. *)
Definition title_of (d : dict) : jval :=
  let a := dict_get d (lit "title") JNull in
  if truthy a then a
  else match dict_get d (lit "source") (JObj []) with
       | JObj sd =>
           let b := dict_get sd (lit "title") JNull in
           if truthy b then b else JStr []
       | _ => JStr []
       end.

(** The items [compact_table] renders without an exception. *)
Definition renderable (item : jval) : bool :=
  match item with
  | JObj d => title_ok d && is_str (snippet_of d)
  | _ => false
  end.

(** [" ".join(s.split())] *)
Definition collapse (s : pystr) : pystr := join (lit " ") (split s).

(** No whitespace but single spaces between words: [after_space] tells
    whether the previous character was a space (or the string starts). *)
Fixpoint spaced (after_space : bool) (s : pystr) : bool :=
  match s with
  | [] => negb after_space
  | c :: s' =>
      if is_space c
      then (c =? 32)%N && negb after_space && spaced true s'
      else spaced false s'
  end.

Definition single_spaced (s : pystr) : bool :=
  match s with
  | [] => true
  | _ => spaced true s
  end.

(** The block of item number [i], from its three projections. *)
Definition block_of (lib : Library) (i : nat) (title url : jval) (s : pystr)
  : pystr :=
  rjust 2 (str_of_Z (Z.of_nat i)) ++ lit ". " ++ py_format lib title ++
  newline ++ lit "    " ++ py_format lib url ++
  newline ++ lit "    " ++ textwrap_fill lib (truncate (collapse s)) 92.

(** The block of a renderable item, and the blocks of a list of them
    numbered from [i]. *)
Definition block_for (lib : Library) (i : nat) (item : jval) : pystr :=
  match item with
  | JObj d =>
      match snippet_of d with
      | JStr s => block_of lib i (title_of d) (url_of d) s
      | _ => []
      end
  | _ => []
  end.

Fixpoint blocks_for (lib : Library) (i : nat) (items : list jval)
  : list pystr :=
  match items with
  | [] => []
  | item :: rest => block_for lib i item :: blocks_for lib (S i) rest
  end.

(** A word of [split]: not empty, no whitespace in it. *)
Definition wordlike (w : pystr) : Prop :=
  w <> [] /\ forallb (fun c => negb (is_space c)) w = true.

(** ** A small interpreter, to run the program on examples

    One implementation of [Library]: ASCII decimal numerals for [int]
    and [float], the textual forms of the built-in values, the JSON
    encoder with an indent, a greedy line filler that breaks at spaces
    only, and a tokenizer that knows the option strings as they are
    declared (no abbreviations, no [--opt=value]).  The theorems below
    hold for every [Library]; this one serves the concrete runs. *)
Module Sample.

Definition is_digit (c : codepoint) : bool := ((48 <=? c) && (c <=? 57))%N.

Fixpoint digits_value (acc : Z) (s : pystr) : option Z :=
  match s with
  | [] => Some acc
  | c :: s' =>
      if is_digit c
      then digits_value (10 * acc + Z.of_N (c - 48)) s'
      else None
  end.

Definition numeral (s : pystr) : option Z :=
  match s with
  | [] => None
  | 45%N :: (_ :: _) as ds => option_map Z.opp (digits_value 0 ds)
  | 43%N :: (_ :: _) as ds => digits_value 0 ds
  | 45%N :: [] | 43%N :: [] => None
  | _ => digits_value 0 s
  end.

Definition float_of_Z (z : Z) : spec_float :=
  match z with
  | Z0 => S754_zero false
  | Zpos p => S754_finite false p 0
  | Zneg p => S754_finite true p 0
  end.

(** A finite float [m * 2^e] written out in full. *)
Definition float_digits (m : positive) (e : Z) : pystr :=
  match e with
  | Zneg k =>
      let k := Pos.to_nat k in
      let ds := str_of_Z (Zpos m * 5 ^ Z.of_nat k) in
      let ds := repeat 48%N (S k - List.length ds) ++ ds in
      let int_part := firstn (List.length ds - k) ds in
      let frac := skipn (List.length ds - k) ds in
      let frac := rev (match rev frac with
                       | [] => [48%N]
                       | f => (fix strip (fuel : nat) (l : pystr) : pystr :=
                                 match fuel, l with
                                 | S n, 48%N :: (_ :: _) as l' => strip n l'
                                 | _, _ => l
                                 end) (List.length f) f
                       end) in
      int_part ++ lit "." ++ frac
  | _ => str_of_Z (Zpos m * 2 ^ e) ++ lit ".0"
  end.

Definition float_text (inf nan : pystr) (f : spec_float) : pystr :=
  match f with
  | S754_zero false => lit "0.0"
  | S754_zero true => lit "-0.0"
  | S754_infinity false => inf
  | S754_infinity true => lit "-" ++ inf
  | S754_nan => nan
  | S754_finite false m e => float_digits m e
  | S754_finite true m e => lit "-" ++ float_digits m e
  end.

Definition quoted (q : pystr) (s : pystr) : pystr := q ++ s ++ q.

(** [repr(v)], strings between single quotes. *)
Fixpoint repr (v : jval) : pystr :=
  match v with
  | JNull => lit "None"
  | JBool true => lit "True"
  | JBool false => lit "False"
  | JInt z => str_of_Z z
  | JFloat f => float_text (lit "inf") (lit "nan") f
  | JStr s => quoted (lit "'") s
  | JArr l => lit "[" ++ join (lit ", ") (map repr l) ++ lit "]"
  | JObj d =>
      lit "{" ++
      join (lit ", ")
           (map (fun kv => quoted (lit "'") (fst kv) ++ lit ": " ++ repr (snd kv)) d) ++
      lit "}"
  end.

Definition hex_digit (n : N) : codepoint :=
  (if n <? 10 then 48 + n else 87 + n)%N.

Definition u_escape (c : N) : pystr :=
  lit "\u" ++ map hex_digit
    [(c / 4096) mod 16; (c / 256) mod 16; (c / 16) mod 16; c mod 16]%N.

Definition escape_char (ensure_ascii : bool) (c : codepoint) : pystr :=
  (if c =? 34 then lit "\" ++ [c]
   else if c =? 92 then lit "\\"
   else if c =? 10 then lit "\n"
   else if c =? 13 then lit "\r"
   else if c =? 9 then lit "\t"
   else if c =? 8 then lit "\b"
   else if c =? 12 then lit "\f"
   else if c <? 32 then u_escape c
   else if ensure_ascii && (127 <? c)
        then if c <? 65536 then u_escape c
             else u_escape (55296 + (c - 65536) / 1024) ++
                  u_escape (56320 + (c - 65536) mod 1024)
   else [c])%N.

Definition json_string (ensure_ascii : bool) (s : pystr) : pystr :=
  quoted [34%N] (flat_map (escape_char ensure_ascii) s).

Definition spaces (n : nat) : pystr := repeat 32%N n.

(** [json.dumps(v, ensure_ascii=e, indent=i)], at nesting depth [depth]. *)
Fixpoint encode (e : bool) (i : nat) (depth : nat) (v : jval) : pystr :=
  let inner := newline ++ spaces (i * S depth) in
  let outer := newline ++ spaces (i * depth) in
  match v with
  | JNull => lit "null"
  | JBool true => lit "true"
  | JBool false => lit "false"
  | JInt z => str_of_Z z
  | JFloat f => float_text (lit "Infinity") (lit "NaN") f
  | JStr s => json_string e s
  | JArr [] => lit "[]"
  | JArr l =>
      lit "[" ++ inner ++
      join (lit "," ++ inner) (map (encode e i (S depth)) l) ++
      outer ++ lit "]"
  | JObj [] => lit "{}"
  | JObj d =>
      lit "{" ++ inner ++
      join (lit "," ++ inner)
           (map (fun kv => json_string e (fst kv) ++ lit ": " ++
                           encode e i (S depth) (snd kv)) d) ++
      outer ++ lit "}"
  end.

(** Lines of at most [width] columns, broken at spaces. *)
Fixpoint fill_words (width col : nat) (words : list pystr) : pystr :=
  match words with
  | [] => []
  | w :: rest =>
      let n := List.length w in
      if (col =? 0)%nat then w ++ fill_words width n rest
      else if (col + 1 + n <=? width)%nat
           then lit " " ++ w ++ fill_words width (col + 1 + n) rest
           else newline ++ w ++ fill_words width n rest
  end.

Definition option_strings : list (pystr * dest) :=
  [ (lit "--q", Dq); (lit "--count", Dcount); (lit "--offset", Doffset);
    (lit "--country", Dcountry); (lit "--lang", Dlang);
    (lit "--safesearch", Dsafesearch); (lit "--freshness", Dfreshness);
    (lit "--spellcheck", Dspellcheck);
    (lit "--extra_snippets", Dextra_snippets); (lit "--summary", Dsummary);
    (lit "--json", Djson); (lit "--table", Dtable);
    (lit "--timeout", Dtimeout); (lit "--save", Dsave) ].

Definition option_of (a : pystr) : option dest :=
  option_map snd (find (fun kv => pystr_eqb a (fst kv)) option_strings).

Definition is_switch (d : dest) : bool :=
  match d with Djson | Dtable => true | _ => false end.

(** An argument string: not a dash followed by something that is not a
    number. *)
Definition is_argument (a : pystr) : bool :=
  match a with
  | 45%N :: _ :: _ => match numeral a with Some _ => true | None => false end
  | _ => true
  end.

Definition more (t : token) (r : list token * list pystr)
  : list token * list pystr :=
  (t :: fst r, snd r).

Definition left_over (a : pystr) (r : list token * list pystr)
  : list token * list pystr :=
  (fst r, a :: snd r).

Fixpoint scan (argv : list pystr) : list token * list pystr :=
  match argv with
  | [] => ([], [])
  | a :: rest =>
      if pystr_eqb a (lit "-h") || pystr_eqb a (lit "--help")
      then more THelp (scan rest)
      else match option_of a with
           | None => left_over a (scan rest)
           | Some d =>
               if is_switch d then more (TOpt d None) (scan rest)
               else match rest with
                    | v :: rest' =>
                        if is_argument v
                        then more (TOpt d (Some v)) (scan rest')
                        else more (TOpt d None) (scan rest)
                    | [] => ([TOpt d None], [])
                    end
           end
  end.

Definition lib : Library :=
  {| py_int := numeral;
     py_float := fun s => option_map float_of_Z (numeral s);
     py_str := repr;
     json_dumps := fun e i v => encode e (Z.to_nat i) 0 v;
     textwrap_fill := fun s w => fill_words (Z.to_nat w) 0 (split s);
     argparse_scan := scan;
     argparse_usage := fun msg =>
       lit "usage: main.py [-h] --q Q [options]" ++ newline ++
       lit "main.py: error: " ++ msg ++ newline;
     argparse_help := lit "usage: main.py [-h] --q Q [options]" ++ newline |}.

(** A world: the credential, the command line, the answer of the
    server, a writable disk. *)
Definition world (key : option pystr) (argv : list pystr) (answer : get_result)
  : World :=
  {| getenv := key;
     argv := argv;
     send := fun _ => answer;
     open_w := fun _ => None |}.

Definition ok_response (body : jval) : get_result :=
  GetReturned {| status_code := 200;
                 reason := lit "OK";
                 url := API_URL;
                 text := encode true 0 0 body;
                 decoded := inr body |}.

(** The documents of the examples. *)
Definition item : jval :=
  JObj [ (lit "title", JStr (lit "T"));
         (lit "url", JStr (lit "http://x"));
         (lit "description", JStr (lit "d   e")) ].

Definition doc : jval :=
  JObj [ (lit "web", JObj [ (lit "results", JArr [item]) ]) ].

Definition long_snippet : pystr := lit "d " ++ repeat 120%N 200.

Definition long_item : dict :=
  [ (lit "title", JStr (lit "T"));
    (lit "url", JStr (lit "http://x"));
    (lit "description", JStr long_snippet) ].

End Sample.

(** ** Vocabulary for the options and the runs *)

Definition dest_eqb (a b : dest) : bool :=
  match a, b with
  | Dq, Dq | Dcount, Dcount | Doffset, Doffset | Dcountry, Dcountry
  | Dlang, Dlang | Dsafesearch, Dsafesearch | Dfreshness, Dfreshness
  | Dspellcheck, Dspellcheck | Dextra_snippets, Dextra_snippets
  | Dsummary, Dsummary | Djson, Djson | Dtable, Dtable
  | Dtimeout, Dtimeout | Dsave, Dsave => true
  | _, _ => false
  end.

(** The option [d] occurs among the recognised options. *)
Definition mentions (d : dest) (toks : list token) : bool :=
  existsb (fun t => match t with
                    | TOpt d' _ => dest_eqb d d'
                    | _ => false
                    end) toks.

(** [getattr(namespace, dest)], in one type. *)
Inductive attr_value : Type :=
| AOpt (o : option pystr)
| AStr (s : pystr)
| AInt (z : Z)
| ABool (b : bool)
| AFloat (f : spec_float).

Definition attr (d : dest) (ns : Namespace.t) : attr_value :=
  match d with
  | Dq => AOpt (Namespace.q ns)
  | Dcount => AInt (Namespace.count ns)
  | Doffset => AInt (Namespace.offset ns)
  | Dcountry => AStr (Namespace.country ns)
  | Dlang => AStr (Namespace.lang ns)
  | Dsafesearch => AInt (Namespace.safesearch ns)
  | Dfreshness => AOpt (Namespace.freshness ns)
  | Dspellcheck => AInt (Namespace.spellcheck ns)
  | Dextra_snippets => AInt (Namespace.extra_snippets ns)
  | Dsummary => AInt (Namespace.summary ns)
  | Djson => ABool (Namespace.json ns)
  | Dtable => ABool (Namespace.table ns)
  | Dtimeout => AFloat (Namespace.timeout ns)
  | Dsave => AOpt (Namespace.save ns)
  end.

(** The restricted options hold one of their choices. *)
Definition choices_kept (ns : Namespace.t) : Prop :=
  (Namespace.freshness ns = None \/
   exists tok, Namespace.freshness ns = Some tok /\
               In tok [lit "pd"; lit "pw"; lit "pm"; lit "py"]) /\
  In (Namespace.spellcheck ns) [0; 1]%Z /\
  In (Namespace.extra_snippets ns) [0; 1]%Z /\
  In (Namespace.summary ns) [0; 1]%Z.

Definition is_get (e : event) : bool :=
  match e with HttpGet _ => true | _ => false end.

Definition is_stderr (e : event) : bool :=
  match e with Write Stderr _ => true | _ => false end.

(** The six fields of an item [compact_table] reads. *)
Definition item_fields : list pystr :=
  [ lit "title"; lit "source"; lit "url"; lit "link"; lit "description";
    lit "snippet" ].

(** * Properties *)

(** ** Strings *)

Lemma pystr_eqb_eq (a b : pystr) : pystr_eqb a b = true <-> a = b.
Proof.
  revert b; induction a as [|x a IH]; intros [|y b]; simpl;
    try (split; [discriminate | congruence]); try tauto.
  rewrite andb_true_iff, N.eqb_eq, IH.
  split; [intros [-> ->]; reflexivity | intros E; inversion E; auto].
Qed.

Lemma pystr_eqb_refl (a : pystr) : pystr_eqb a a = true.
Proof. apply pystr_eqb_eq; reflexivity. Qed.

(** ** Extraction *)

Lemma por_default (v : jval) :
  por (Ok v) (Ok (JArr [])) = Ok (if truthy v then v else JArr []).
Proof. unfold por; destruct (truthy v); reflexivity. Qed.

Lemma get_results (d : dict) :
  por (py_get (JObj d) (lit "results") (JArr [])) (Ok (JArr []))
  = Ok (results_or_default d).
Proof.
  unfold py_get, dict_get, results_or_default.
  rewrite por_default.
  destruct (lookup (lit "results") d); reflexivity.
Qed.

Lemma extract_web_results_selected (d : dict) :
  extract_web_results (JObj d) = Ok (results_or_default (selected d)).
Proof.
  unfold extract_web_results, selected, py_in, py_index, has_key.
  destruct (lookup (lit "web") d) as [w|] eqn:E; simpl.
  - destruct w; simpl; apply get_results.
  - apply get_results.
Qed.

Lemma spec_rule_agrees (d : dict) :
  match lookup (lit "results") d with
  | Some v => is_list v || negb (truthy v) = true
  | None => True
  end ->
  results_or_default d = Spec.results_or_empty d.
Proof.
  unfold results_or_default, Spec.results_or_empty.
  destruct (lookup (lit "results") d) as [v|]; [|reflexivity].
  destruct v as [| b | z | f | s | l | o]; simpl; intros H;
    try reflexivity.
  - destruct b; [discriminate | reflexivity].
  - destruct (z =? 0)%Z; [reflexivity | discriminate].
  - destruct f; simpl in *; try discriminate; reflexivity.
  - destruct s; [reflexivity | discriminate].
  - destruct l; reflexivity.
  - destruct o; [reflexivity | discriminate].
Qed.

Lemma spec_rule_selected (d : dict) :
  Spec.extraction_rule d = Spec.results_or_empty (selected d).
Proof.
  unfold Spec.extraction_rule, selected.
  destruct (lookup (lit "web") d) as [[]|]; reflexivity.
Qed.

(** C2, as the code has it.  For every decoded response document [d]:
    [extract_web_results] selects the inner document of [web] when that
    field holds a document and [d] itself otherwise, and returns the
    [results] field of the selected document, or an empty list when the
    field is absent or falsy; a truthy value is returned as it is, list
    or not.  The result is the one the specification words whenever the
    field is absent, a list or falsy; in particular
    [{"web": {"results": [A]}}] gives [[A]], [{"results": [B]}] gives
    [[B]] and [{}] gives [[]]. *)
Theorem extract_web_results_rule (d : dict) :
  extract_web_results (JObj d) = Ok (results_or_default (selected d)) /\
  (match lookup (lit "results") (selected d) with
   | Some v => is_list v || negb (truthy v) = true
   | None => True
   end ->
   extract_web_results (JObj d) = Ok (Spec.extraction_rule d)) /\
  (forall A : jval,
     extract_web_results
       (JObj [(lit "web", JObj [(lit "results", JArr [A])])]) = Ok (JArr [A])) /\
  (forall B : jval,
     extract_web_results (JObj [(lit "results", JArr [B])]) = Ok (JArr [B])) /\
  extract_web_results (JObj []) = Ok (JArr []).
Proof.
  split; [apply extract_web_results_selected|].
  split.
  - intros H. rewrite extract_web_results_selected, spec_rule_selected.
    f_equal. apply spec_rule_agrees, H.
  - repeat split; intros; reflexivity.
Qed.

Lemma extract_web_results_rule_witness :
  extract_web_results (JObj [(lit "results", JNull)])
  = Ok (Spec.extraction_rule [(lit "results", JNull)]).
Proof.
  destruct (extract_web_results_rule [(lit "results", JNull)])
    as (_ & agrees & _).
  apply agrees. simpl. reflexivity.
Defined.

(** C2 as stated fails on [{"results": "n/a"}]: the field is not a list,
    and the code returns the string, not an empty list. *)
Lemma extract_web_results_not_a_list :
  extract_web_results (JObj [(lit "results", JStr (lit "n/a"))])
  = Ok (JStr (lit "n/a")) /\
  Spec.extraction_rule [(lit "results", JStr (lit "n/a"))] = JArr [] /\
  extract_web_results (JObj [(lit "results", JStr (lit "n/a"))])
  <> Ok (Spec.extraction_rule [(lit "results", JStr (lit "n/a"))]).
Proof.
  split; [reflexivity | split; [reflexivity | discriminate]].
Qed.

(** ** The request builder *)

Lemma key_in_In (k : pystr) (d : params) :
  key_in k d = true <-> In k (keys d).
Proof.
  unfold key_in. rewrite existsb_exists. split.
  - intros (x & Hx & E). apply pystr_eqb_eq in E. subst; assumption.
  - intros H. exists k. split; [assumption | apply pystr_eqb_refl].
Qed.

Lemma keys_dict_set (k : pystr) (v : pval) (d : params) :
  keys (dict_set k v d) = if key_in k d then keys d else keys d ++ [k].
Proof.
  unfold key_in, keys.
  induction d as [|[k' v'] d IH]; simpl; [reflexivity|].
  destruct (pystr_eqb k k') eqn:E; simpl.
  - apply pystr_eqb_eq in E. subst. reflexivity.
  - rewrite IH. destruct (existsb (pystr_eqb k) (map fst d)); reflexivity.
Qed.

Lemma build_params_keys (args : Namespace.t) :
  keys (build_params args) =
  always_keys
  ++ when (given (Namespace.freshness args)) (lit "freshness")
  ++ when (negb (Namespace.extra_snippets args =? 0)%Z) (lit "extra_snippets")
  ++ when (negb (Namespace.summary args =? 0)%Z) (lit "summary").
Proof.
  unfold build_params.
  destruct (given (Namespace.freshness args));
    destruct (Namespace.extra_snippets args =? 0)%Z;
    destruct (Namespace.summary args =? 0)%Z; simpl negb; cbv iota;
    repeat (rewrite keys_dict_set; simpl key_in; cbv iota); reflexivity.
Qed.

Ltac literal_keys :=
  repeat match goal with
         | H : In _ (_ :: _) |- _ =>
             destruct H as [H | H]; [vm_compute in H; discriminate H|]
         | H : In _ [] |- _ => destruct H
         | H : In _ (_ ++ _) |- _ => apply in_app_or in H; destruct H as [H | H]
         | H : In _ (when false _) |- _ => exact H
         | H : In _ (when true _) |- _ => unfold when in H
         | H : In _ (when ?b _) |- _ => destruct b eqn:?
         end.

(** C3.  For every options value, the mapping [build_params] returns
    has no key [freshness] when that option is [None] or empty, no key
    [extra_snippets] when that option is 0 and no key [summary] when that
    option is 0 (the key is absent, not bound to a falsy value), and it
    has the seven keys [q], [count], [offset], [country], [search_lang],
    [safesearch] and [spellcheck]. *)
Theorem build_params_absent_when_falsy (args : Namespace.t) :
  (given (Namespace.freshness args) = false ->
   ~ In (lit "freshness") (keys (build_params args))) /\
  (Namespace.extra_snippets args = 0%Z ->
   ~ In (lit "extra_snippets") (keys (build_params args))) /\
  (Namespace.summary args = 0%Z ->
   ~ In (lit "summary") (keys (build_params args))) /\
  (forall k, In k always_keys -> In k (keys (build_params args))).
Proof.
  rewrite build_params_keys.
  repeat split.
  - intros -> H. unfold always_keys in H. literal_keys.
  - intros -> H. unfold always_keys in H. simpl negb in H. literal_keys.
  - intros -> H. unfold always_keys in H. simpl negb in H. literal_keys.
  - intros k H. apply in_or_app. left. exact H.
Qed.

Lemma build_params_absent_when_falsy_witness :
  ~ In (lit "freshness") (keys (build_params defaults)) /\
  ~ In (lit "extra_snippets") (keys (build_params defaults)) /\
  ~ In (lit "summary") (keys (build_params defaults)).
Proof.
  destruct (build_params_absent_when_falsy defaults) as (F & E & S & _).
  split; [apply F; reflexivity|].
  split; [apply E; reflexivity | apply S; reflexivity].
Defined.

Lemma dict_set_other (k k' : pystr) (v v' : pval) (d : params) :
  k <> k' -> In (k', v') d -> In (k', v') (dict_set k v d).
Proof.
  intros N. induction d as [|[k0 v0] d IH]; simpl; [tauto|].
  intros [E | H].
  - inversion E; subst. destruct (pystr_eqb k k') eqn:Q.
    + apply pystr_eqb_eq in Q. contradiction.
    + left; reflexivity.
  - destruct (pystr_eqb k k0); right; auto.
Qed.

Lemma build_params_safesearch (args : Namespace.t) :
  In (lit "safesearch",
      PStr (map_get SAFES_SEARCH_MAP (Namespace.safesearch args) (lit "off")))
     (build_params args).
Proof.
  unfold build_params.
  destruct (given (Namespace.freshness args));
    destruct (negb (Namespace.extra_snippets args =? 0)%Z);
    destruct (negb (Namespace.summary args =? 0)%Z);
    repeat (apply dict_set_other; [vm_compute; discriminate|]);
    simpl; tauto.
Qed.

(** ** The argument resolver *)

Section Parsing.

Variable lib : Library.

Lemma as_int_choices (cs : list Z) (s : pystr) (n : Z) :
  as_int lib (Some cs) s = inr n -> py_int lib s = Some n /\ In n cs.
Proof.
  unfold as_int. destruct (py_int lib s) as [m|]; [|discriminate].
  destruct (existsb (Z.eqb m) cs) eqn:E; [|discriminate].
  intros H; inversion H; subst. split; [reflexivity|].
  apply existsb_exists in E. destruct E as (x & Hx & Q).
  apply Z.eqb_eq in Q. subst; assumption.
Qed.

Lemma store_keeps_level (d : dest) (arg : option pystr) (ns ns' : Namespace.t) :
  store lib d arg ns = inr ns' ->
  level_ok (Namespace.safesearch ns) -> level_ok (Namespace.safesearch ns').
Proof.
  destruct ns; destruct d, arg as [s|]; simpl; try discriminate;
    unfold and_then;
    try (intros H; inversion H; subst; simpl; tauto);
    try (destruct (as_int lib _ s) eqn:E; [discriminate|];
         intros H; inversion H; subst; simpl;
         try tauto; apply as_int_choices in E; intros _; apply E);
    try (destruct (as_choice _ s); [discriminate|];
         intros H; inversion H; subst; simpl; tauto);
    try (destruct (as_float lib s); [discriminate|];
         intros H; inversion H; subst; simpl; tauto).
Qed.

Lemma consume_keeps_level (toks : list token) :
  forall ns seen ns' seen',
    consume lib toks ns seen = Parsed ns' seen' ->
    level_ok (Namespace.safesearch ns) -> level_ok (Namespace.safesearch ns').
Proof.
  induction toks as [|t toks IH]; simpl; intros ns seen ns' seen' H L.
  - inversion H; subst; assumption.
  - destruct t as [d arg | | msg]; try discriminate.
    destruct (store lib d arg ns) as [msg | ns1] eqn:S; [discriminate|].
    eapply IH; [exact H|]. eapply store_keeps_level; eauto.
Qed.

(** A successful parse writes nothing. *)
Lemma parse_args_next (argv : list pystr) (t : list event) (ns : Namespace.t) :
  parse_args lib argv = (t, Next ns) ->
  t = [] /\
  exists seen, consume lib (fst (argparse_scan lib argv)) defaults false
               = Parsed ns seen.
Proof.
  unfold parse_args.
  destruct (argparse_scan lib argv) as [toks extras]; simpl.
  destruct (consume lib toks defaults false) as [ns0 seen | | msg];
    try discriminate.
  destruct seen; simpl; try discriminate.
  destruct extras; try discriminate.
  intros H; inversion H; subst. split; [reflexivity | eauto].
Qed.

Lemma parse_args_level (argv : list pystr) (t : list event) (ns : Namespace.t) :
  parse_args lib argv = (t, Next ns) -> level_ok (Namespace.safesearch ns).
Proof.
  intros H. apply parse_args_next in H. destruct H as (_ & seen & H).
  eapply consume_keeps_level; [exact H|]. simpl. left; reflexivity.
Qed.

Lemma store_rejects_level (s : pystr) (ns : Namespace.t) :
  bad_level lib s -> exists msg, store lib Dsafesearch (Some s) ns = inl msg.
Proof.
  intros B. simpl. unfold and_then, as_int.
  destruct (py_int lib s) as [n|] eqn:E; [|eauto].
  destruct (existsb (Z.eqb n) [0; 1; 2]%Z) eqn:X; [|eauto].
  exfalso. apply (B n E).
  apply existsb_exists in X. destruct X as (x & Hx & Q).
  apply Z.eqb_eq in Q. subst; assumption.
Qed.

Lemma consume_rejects_level (before after : list token) (s : pystr) :
  bad_level lib s ->
  forall ns seen,
    (In THelp before /\
     consume lib (before ++ TOpt Dsafesearch (Some s) :: after) ns seen
     = HelpRequested) \/
    exists msg,
      consume lib (before ++ TOpt Dsafesearch (Some s) :: after) ns seen
      = UsageError msg.
Proof.
  intros B. induction before as [|t before IH]; simpl; intros ns seen.
  - right. destruct (store_rejects_level ns B) as (msg & E).
    simpl in E. rewrite E. eauto.
  - destruct t as [d arg | | msg].
    + destruct (store lib d arg ns) as [msg | ns1]; [right; eauto|].
      destruct (IH ns1 (seen || is_q d)) as [[H E] | E]; [left | right]; auto.
    + left; auto.
    + right; eauto.
Qed.

End Parsing.

(** ** Runs of [main] *)

Lemma pbind_trace {A B} (c : proc A) (f : A -> proc B) :
  trace (pbind c f) =
  trace c ++ match snd c with Next a => trace (f a) | Stop _ => [] end.
Proof.
  destruct c as [t [a | o]]; simpl; [|symmetry; apply app_nil_r].
  destruct (f a); reflexivity.
Qed.

Lemma pbind_snd {A B} (c : proc A) (f : A -> proc B) :
  snd (pbind c f) =
  match snd c with Next a => snd (f a) | Stop o => Stop o end.
Proof.
  destruct c as [t [a | o]]; simpl; [|reflexivity].
  destruct (f a); reflexivity.
Qed.

Lemma pbind_pret {A B} (a : A) (f : A -> proc B) : pbind (pret a) f = f a.
Proof. unfold pbind, pret. destruct (f a); reflexivity. Qed.

Lemma pbind_next {A B} (t : list event) (a : A) (f : A -> proc B) :
  pbind (t, Next a) f = (t ++ trace (f a), snd (f a)).
Proof. unfold pbind. destruct (f a); reflexivity. Qed.


Section Running.

Variable lib : Library.

Lemma main_no_key (w : World) :
  given (getenv w) = false ->
  main lib w =
  ([Write Stderr (lit "Error: BRAVE_SEARCH_API_KEY is not set" ++ newline)],
   Stop (Exit 1)).
Proof.
  unfold main, main_credential.
  destruct (getenv w) as [[|c k]|]; simpl; intros H;
    try discriminate; reflexivity.
Qed.

Lemma given_some (o : option pystr) :
  given o = true -> exists c k, o = Some (c :: k).
Proof. destruct o as [[|c k]|]; simpl; try discriminate; eauto. Qed.

Lemma main_with_key (w : World) (key : pystr) :
  getenv w = Some key -> given (Some key) = true ->
  main lib w =
  (args <- parse_args lib (argv w) ;;
   data <- main_request w (the_request key args) ;;
   main_save lib w args data ;;
   main_render lib args data)%proc.
Proof.
  intros E G. unfold main, main_credential. rewrite E.
  destruct key as [|c k]; [discriminate|].
  rewrite pbind_pret. reflexivity.
Qed.

Lemma main_parsed (w : World) (key : pystr) (args : Namespace.t) :
  getenv w = Some key -> given (Some key) = true ->
  parse_args lib (argv w) = pret args ->
  main lib w =
  (data <- main_request w (the_request key args) ;;
   main_save lib w args data ;;
   main_render lib args data)%proc.
Proof.
  intros E G P. rewrite (main_with_key w E G), P, pbind_pret. reflexivity.
Qed.

Lemma main_parse_stopped (w : World) (t : list event) (o : outcome) :
  given (getenv w) = true ->
  parse_args lib (argv w) = (t, Stop o) ->
  main lib w = (t, Stop o).
Proof.
  intros G P. destruct (given_some _ G) as (c & k & E).
  rewrite (main_with_key w E); [|reflexivity].
  rewrite P. reflexivity.
Qed.

Lemma parse_args_usage (argv : list pystr) (msg : pystr) :
  consume lib (fst (argparse_scan lib argv)) defaults false = UsageError msg ->
  parse_args lib argv = ([Write Stderr (argparse_usage lib msg)], Stop (Exit 2)).
Proof.
  unfold parse_args. destruct (argparse_scan lib argv) as [toks extras]; simpl.
  intros ->. reflexivity.
Qed.

Lemma parse_args_help (argv : list pystr) :
  consume lib (fst (argparse_scan lib argv)) defaults false = HelpRequested ->
  parse_args lib argv = ([Write Stdout (argparse_help lib)], Stop (Exit 0)).
Proof.
  unfold parse_args. destruct (argparse_scan lib argv) as [toks extras]; simpl.
  intros ->. reflexivity.
Qed.

(** The parser writes text only; it never calls the network. *)
Lemma parse_args_quiet (argv : list pystr) (e : event) :
  In e (trace (parse_args lib argv)) -> exists to data, e = Write to data.
Proof.
  unfold parse_args. destruct (argparse_scan lib argv) as [toks extras].
  destruct (consume lib toks defaults false) as [ns seen | | msg]; simpl.
  - destruct seen; simpl.
    + destruct extras; simpl; [tauto|]. intros [<- | []]; eauto.
    + intros [<- | []]; eauto.
  - intros [<- | []]; eauto.
  - intros [<- | []]; eauto.
Qed.

End Running.

(** ** The credential comes first *)

(** C6.  When the environment variable [BRAVE_SEARCH_API_KEY] is absent
    or empty, the run consists of one line on the error stream and exit
    status 1, whatever the command line is (well-formed or not) and
    whatever the parser and the network would do: the arguments are not
    parsed and no request is sent. *)
Theorem missing_key_exits_first (lib : Library) (w : World) :
  given (getenv w) = false ->
  main lib w =
  ([Write Stderr (lit "Error: BRAVE_SEARCH_API_KEY is not set" ++ newline)],
   Stop (Exit 1)) /\
  (forall (lib' : Library) (w' : World),
     getenv w' = getenv w -> main lib' w' = main lib w) /\
  (forall rq, ~ In (HttpGet rq) (trace (main lib w))).
Proof.
  intros G. split; [apply main_no_key, G|]. split.
  - intros lib' w' E. rewrite !main_no_key; congruence.
  - intros rq. rewrite main_no_key by exact G. simpl.
    intros [H | []]; discriminate.
Qed.

Lemma missing_key_exits_first_witness :
  ending (main Sample.lib
            (Sample.world None [lit "--safesearch"; lit "9"; lit "--bogus"]
                          (GetRaised (lit "unreachable"))))
  = Exit 1 /\
  ending (main Sample.lib
            (Sample.world (Some []) [lit "--q"; lit "test"]
                          (Sample.ok_response (JObj []))))
  = Exit 1.
Proof.
  split.
  - destruct (@missing_key_exits_first Sample.lib
                (Sample.world None [lit "--safesearch"; lit "9"; lit "--bogus"]
                              (GetRaised (lit "unreachable")))) as (E & _).
    + reflexivity.
    + rewrite E. reflexivity.
  - destruct (@missing_key_exits_first Sample.lib
                (Sample.world (Some []) [lit "--q"; lit "test"]
                              (Sample.ok_response (JObj [])))) as (E & _).
    + reflexivity.
    + rewrite E. reflexivity.
Defined.

(** ** Safe-search levels *)

Lemma main_rejects_level (lib : Library) (w : World)
      (before after : list token) (s : pystr) :
  fst (argparse_scan lib (argv w))
  = before ++ TOpt Dsafesearch (Some s) :: after ->
  bad_level lib s ->
  (forall rq, ~ In (HttpGet rq) (trace (main lib w))) /\
  (given (getenv w) = true -> ~ In THelp before ->
   exists msg,
     main lib w = ([Write Stderr (argparse_usage lib msg)], Stop (Exit 2))).
Proof.
  intros S B.
  assert (P : (In THelp before /\
               parse_args lib (argv w)
               = ([Write Stdout (argparse_help lib)], Stop (Exit 0))) \/
              exists msg,
                parse_args lib (argv w)
                = ([Write Stderr (argparse_usage lib msg)], Stop (Exit 2))).
  { destruct (consume_rejects_level before after B defaults false)
      as [[H E] | [msg E]]; rewrite <- S in E.
    - left. split; [exact H | apply parse_args_help, E].
    - right. exists msg. apply parse_args_usage, E. }
  split.
  - intros rq. destruct (given (getenv w)) eqn:G.
    + destruct P as [[_ E] | [msg E]];
        rewrite (main_parse_stopped lib w G E); simpl;
        intros [H | []]; discriminate.
    + rewrite main_no_key by exact G. simpl. intros [H | []]; discriminate.
  - intros G NH. destruct P as [[H _] | [msg E]]; [contradiction|].
    exists msg. apply main_parse_stopped; assumption.
Qed.

(** C7.  The table [SAFES_SEARCH_MAP] sends 0 to ["off"], 1 to
    ["moderate"] and 2 to ["strict"].  Whenever the arguments parse, the
    level is 0, 1 or 2 and the request carries its token under
    [safesearch].  An argument of [--safesearch] that is not one of the
    three integers is refused when it is stored; a command line with
    such an argument sends no request, and (the credential being set and
    no help requested before it) ends in a usage error with exit
    status 2. *)
Theorem safesearch_levels (lib : Library) :
  (map_get SAFES_SEARCH_MAP 0 (lit "off") = lit "off" /\
   map_get SAFES_SEARCH_MAP 1 (lit "off") = lit "moderate" /\
   map_get SAFES_SEARCH_MAP 2 (lit "off") = lit "strict") /\
  (forall argv t args,
     parse_args lib argv = (t, Next args) ->
     level_ok (Namespace.safesearch args) /\
     exists tok,
       In (Namespace.safesearch args, tok) SAFES_SEARCH_MAP /\
       In (lit "safesearch", PStr tok) (build_params args)) /\
  (forall s ns,
     bad_level lib s -> exists msg, store lib Dsafesearch (Some s) ns = inl msg) /\
  (forall w before after s,
     fst (argparse_scan lib (argv w))
     = before ++ TOpt Dsafesearch (Some s) :: after ->
     bad_level lib s ->
     (forall rq, ~ In (HttpGet rq) (trace (main lib w))) /\
     (given (getenv w) = true -> ~ In THelp before ->
      exists msg,
        main lib w = ([Write Stderr (argparse_usage lib msg)], Stop (Exit 2)))).
Proof.
  split; [repeat split|]. split; [|split].
  - intros argv t args P. pose proof (parse_args_level _ _ P) as L.
    split; [exact L|].
    exists (map_get SAFES_SEARCH_MAP (Namespace.safesearch args) (lit "off")).
    split; [|apply build_params_safesearch].
    destruct L as [<- | [<- | [<- | []]]]; simpl; tauto.
  - intros s ns B. apply store_rejects_level, B.
  - intros w before after s S B. eapply main_rejects_level; eauto.
Qed.

Lemma safesearch_levels_witness :
  level_ok (Namespace.safesearch
              (Namespace.set_safesearch 2
                 (Namespace.set_q (Some (lit "test")) defaults))) /\
  exists msg,
    main Sample.lib
         (Sample.world (Some (lit "key"))
                       [lit "--q"; lit "test"; lit "--safesearch"; lit "7"]
                       (Sample.ok_response (JObj [])))
    = ([Write Stderr (argparse_usage Sample.lib msg)], Stop (Exit 2)).
Proof.
  destruct (safesearch_levels Sample.lib) as (_ & parsed_ok & _ & rejected).
  split.
  - apply (proj1 (parsed_ok
                    [lit "--q"; lit "test"; lit "--safesearch"; lit "2"]
                    [] _ eq_refl)).
  - apply (rejected
             (Sample.world (Some (lit "key"))
                           [lit "--q"; lit "test"; lit "--safesearch"; lit "7"]
                           (Sample.ok_response (JObj [])))
             [TOpt Dq (Some (lit "test"))] [] (lit "7")).
    + reflexivity.
    + intros n H. vm_compute in H. inversion H; subst.
      intros [E | [E | [E | []]]]; discriminate E.
    + reflexivity.
    + simpl. intros [E | []]. discriminate E.
Defined.

(** ** The request *)

Section Requesting.

Variable lib : Library.


Lemma raise_for_status_quiet (r : Response) :
  (status_code r < 400)%Z -> raise_for_status r = None.
Proof.
  intros Lo. unfold raise_for_status.
  destruct (400 <=? status_code r)%Z eqn:C; [apply Z.leb_le in C; lia|].
  destruct (500 <=? status_code r)%Z eqn:S; [apply Z.leb_le in S; lia|].
  reflexivity.
Qed.







(** After the request nothing chooses an exit status. *)
Lemma main_table_unforced (data : jval) : unforced (main_table lib data).
Proof.
  unfold unforced, main_table. rewrite pbind_snd.
  destruct (extract_web_results data) as [results | e]; simpl; [|exact I].
  destruct (truthy results); simpl; [|exact I].
  rewrite pbind_snd.
  destruct (compact_table lib results); simpl; exact I.
Qed.

Lemma main_render_unforced (args : Namespace.t) (data : jval) :
  unforced (main_render lib args data).
Proof.
  pose proof (main_table_unforced data) as T.
  unfold unforced, main_render in *. rewrite pbind_snd.
  destruct (Namespace.json args), (Namespace.table args); simpl; auto.
Qed.

Lemma main_save_unforced (w : World) (args : Namespace.t) (data : jval) :
  unforced (main_save lib w args data).
Proof.
  unfold unforced, main_save.
  destruct (given (Namespace.save args)); simpl; [|exact I].
  destruct (Namespace.save args) as [path|]; simpl; [|exact I].
  destruct (open_w w path); simpl; exact I.
Qed.

Lemma after_request_unforced (w : World) (args : Namespace.t) (data : jval) :
  unforced (main_save lib w args data ;; main_render lib args data)%proc.
Proof.
  pose proof (main_save_unforced w args data) as S.
  pose proof (main_render_unforced args data) as R.
  unfold unforced in *. rewrite pbind_snd.
  destruct (snd (main_save lib w args data)) as [[] | o]; assumption.
Qed.

End Requesting.






(** ** The saved copy *)

Section Saving.

Variable lib : Library.

Lemma main_table_stdout (data : jval) :
  Forall (fun e => is_stdout e = true) (trace (main_table lib data)).
Proof.
  unfold main_table. rewrite pbind_trace.
  destruct (extract_web_results data) as [results | e]; simpl; [|constructor].
  destruct (truthy results); simpl; [|repeat constructor].
  rewrite pbind_trace.
  destruct (compact_table lib results); simpl; repeat constructor.
Qed.

Lemma main_render_stdout (args : Namespace.t) (data : jval) :
  Forall (fun e => is_stdout e = true) (trace (main_render lib args data)).
Proof.
  pose proof (main_table_stdout data) as T.
  unfold main_render. rewrite pbind_trace.
  destruct (Namespace.json args), (Namespace.table args); simpl;
    repeat constructor; assumption.
Qed.


Lemma main_save_only (w : World) (args : Namespace.t) (data : jval)
      (e : event) :
  In e (trace (main_save lib w args data)) ->
  exists path,
    Namespace.save args = Some path /\ given (Some path) = true /\
    open_w w path = None /\
    e = FileWrite path (lit "utf-8") (json_dumps lib false 2 data).
Proof.
  unfold main_save.
  destruct (Namespace.save args) as [path|] eqn:S;
    [|destruct (given None); simpl; tauto].
  destruct (given (Some path)) eqn:G; simpl; [|tauto].
  destruct (open_w w path) eqn:O; simpl; [tauto|].
  intros [<- | []]. exists path. auto.
Qed.




End Saving.



(** ** Rendering *)

Section Rendering.

Variable lib : Library.

Lemma main_table_empty (data results : jval) :
  extract_web_results data = Ok results -> truthy results = false ->
  main_table lib data =
  ([Write Stdout (lit "No web results in response" ++ newline)], Next tt).
Proof.
  intros E T. unfold main_table. rewrite E. simpl call.
  rewrite pbind_pret, T. reflexivity.
Qed.

Lemma main_table_printed (data results : jval) (table : pystr) :
  extract_web_results data = Ok results -> truthy results = true ->
  compact_table lib results = Ok table ->
  main_table lib data = ([Write Stdout (table ++ newline)], Next tt).
Proof.
  intros E T C. unfold main_table. rewrite E. simpl call.
  rewrite pbind_pret, T, C. reflexivity.
Qed.

Lemma main_render_flags (args : Namespace.t) (data : jval) :
  main_render lib args data =
  match Namespace.json args, Namespace.table args with
  | false, true => main_table lib data
  | _, false =>
      ([Write Stdout (json_dumps lib false 2 data ++ newline)], Next tt)
  | true, true =>
      (Write Stdout (json_dumps lib false 2 data ++ newline)
       :: Write Stdout ((newline ++ lit "---" ++ newline) ++ newline)
       :: trace (main_table lib data),
       snd (main_table lib data))
  end.
Proof.
  unfold main_render.
  destruct (Namespace.json args), (Namespace.table args); simpl orb;
    simpl negb; cbv iota.
  - unfold print, emit.
    repeat (rewrite pbind_next; cbn [trace fst snd app]). reflexivity.
  - unfold print, emit, pret.
    repeat (rewrite pbind_next; cbn [trace fst snd app]). reflexivity.
  - rewrite pbind_pret. reflexivity.
  - unfold print, emit, pret.
    repeat (rewrite pbind_next; cbn [trace fst snd app]). reflexivity.
Qed.

End Rendering.

(** C1.  For every decoded response and every setting of the two
    flags, what the renderer does is:
    - only [--table]: the table section alone, no JSON block;
    - neither flag: the JSON block alone;
    - only [--json]: the JSON block alone;
    - both: the JSON block, then the separator line, then the table
      section.
    The JSON block is the response dumped with [ensure_ascii=False] and
    [indent=2]; the table section prints the compact table of the
    extracted results when there are some. *)
Theorem output_modes (lib : Library) (args : Namespace.t) (data : jval) :
  let block := Write Stdout (json_dumps lib false 2 data ++ newline) in
  let separator :=
    Write Stdout ((newline ++ lit "---" ++ newline) ++ newline) in
  (Namespace.json args = false -> Namespace.table args = true ->
   main_render lib args data = main_table lib data) /\
  (Namespace.json args = false -> Namespace.table args = false ->
   main_render lib args data = ([block], Next tt)) /\
  (Namespace.json args = true -> Namespace.table args = false ->
   main_render lib args data = ([block], Next tt)) /\
  (Namespace.json args = true -> Namespace.table args = true ->
   main_render lib args data =
   (block :: separator :: trace (main_table lib data),
    snd (main_table lib data))) /\
  (forall results table,
     extract_web_results data = Ok results -> truthy results = true ->
     compact_table lib results = Ok table ->
     main_table lib data = ([Write Stdout (table ++ newline)], Next tt)).
Proof.
  intros block separator.
  repeat split; try (intros J T; rewrite main_render_flags, J, T; reflexivity).
  intros results table. apply main_table_printed.
Qed.

(** ** Whitespace *)

Lemma split_from_content (s : pystr) :
  forall w,
    List.concat (split_from w s) = w ++ filter (fun c => negb (is_space c)) s.
Proof.
  induction s as [|c s IH]; intros w; simpl.
  - destruct w; simpl; [reflexivity | rewrite app_nil_r; reflexivity].
  - destruct (is_space c); simpl.
    + destruct w; simpl; rewrite IH; reflexivity.
    + rewrite IH, <- app_assoc. reflexivity.
Qed.

Lemma split_from_words (s : pystr) :
  forall w,
    forallb (fun c => negb (is_space c)) w = true ->
    Forall wordlike (split_from w s).
Proof.
  induction s as [|c s IH]; intros w W; simpl.
  - destruct w; constructor; [|constructor]. split; [discriminate | exact W].
  - destruct (is_space c) eqn:C.
    + destruct w as [|x w]; [apply IH; reflexivity|].
      constructor; [split; [discriminate | exact W] | apply IH; reflexivity].
    + apply IH. rewrite forallb_app, W. simpl. rewrite C. reflexivity.
Qed.

Lemma spaced_word (w rest : pystr) (b : bool) :
  wordlike w -> spaced b (w ++ rest) = spaced false rest.
Proof.
  intros [N W]. revert b. induction w as [|c w IH]; intros b; [contradiction|].
  simpl in W. apply andb_true_iff in W. destruct W as [C W].
  simpl. apply negb_true_iff in C. rewrite C.
  destruct w as [|c' w]; [reflexivity|].
  apply IH; [discriminate | exact W].
Qed.

Lemma spaced_join (words : list pystr) :
  Forall wordlike words -> words <> [] ->
  spaced true (join (lit " ") words) = true.
Proof.
  induction 1 as [|w words W F IH]; intros N; [contradiction|].
  destruct words as [|w' words].
  - simpl. rewrite <- (app_nil_r w), (spaced_word [] true W). reflexivity.
  - change (join (lit " ") (w :: w' :: words))
      with (w ++ lit " " ++ join (lit " ") (w' :: words)).
    rewrite (spaced_word _ true W).
    change (lit " " ++ join (lit " ") (w' :: words))
      with (32%N :: join (lit " ") (w' :: words)).
    simpl spaced. apply IH. discriminate.
Qed.

Lemma collapse_single_spaced (s : pystr) : single_spaced (collapse s) = true.
Proof.
  unfold collapse, split.
  pose proof (@split_from_words s [] eq_refl) as F.
  destruct (split_from [] s) as [|w words] eqn:E; [reflexivity|].
  pose proof (spaced_join F) as J.
  unfold single_spaced.
  destruct (join (lit " ") (w :: words)); [reflexivity|].
  apply J. discriminate.
Qed.

Lemma join_cons (sep w : pystr) (rest : list pystr) :
  rest <> [] -> join sep (w :: rest) = w ++ sep ++ join sep rest.
Proof. destruct rest; [contradiction | reflexivity]. Qed.

Lemma spaced_fixed (s : pystr) :
  (forall w, w <> [] -> spaced false s = true ->
             join (lit " ") (split_from w s) = w ++ s) /\
  (spaced true s = true -> join (lit " ") (split_from [] s) = s).
Proof.
  induction s as [|c s [IHw IHe]]; (split; [intros w N H | intros H]).
  - simpl. destruct w; [contradiction|]. rewrite app_nil_r. reflexivity.
  - discriminate H.
  - simpl in *. destruct (is_space c) eqn:C.
    + rewrite !andb_true_iff in H. destruct H as [[Q _] H].
      apply N.eqb_eq in Q. subst c.
      specialize (IHe H).
      destruct w as [|x w]; [contradiction|].
      rewrite join_cons.
      * rewrite IHe. reflexivity.
      * intros Z. rewrite Z in IHe. simpl in IHe. subst s. discriminate H.
    + rewrite IHw; [rewrite <- app_assoc; reflexivity | | exact H].
      destruct w; discriminate.
  - simpl in *. destruct (is_space c) eqn:C.
    + rewrite andb_false_r in H. discriminate H.
    + apply (IHw [c]); [discriminate | exact H].
Qed.

Lemma collapse_fixed (s : pystr) : single_spaced s = true -> collapse s = s.
Proof.
  destruct s as [|c s]; [reflexivity|].
  unfold single_spaced, collapse, split. apply spaced_fixed.
Qed.

Lemma truncate_long (s : pystr) :
  (160 < List.length s)%nat ->
  truncate s = firstn 157 s ++ lit "..." /\
  List.length (firstn 157 s) = 157%nat /\
  List.length (truncate s) = 160%nat.
Proof.
  intros L. unfold truncate.
  destruct (160 <? Z.of_nat (List.length s))%Z eqn:C;
    [|apply Z.ltb_ge in C; lia].
  assert (F : List.length (firstn 157 s) = 157%nat)
    by (rewrite length_firstn; lia).
  repeat split; [exact F|].
  rewrite length_app, F. reflexivity.
Qed.

Lemma truncate_short (s : pystr) :
  (List.length s <= 160)%nat -> truncate s = s.
Proof.
  intros L. unfold truncate.
  destruct (160 <? Z.of_nat (List.length s))%Z eqn:C;
    [apply Z.ltb_lt in C; lia | reflexivity].
Qed.

(** ** The table *)

Section Table.

Variable lib : Library.

Lemma por_ok (v : jval) (b : result jval) :
  por (Ok v) b = if truthy v then Ok v else b.
Proof. reflexivity. Qed.

Lemma item_url_obj (d : dict) : item_url (JObj d) = Ok (url_of d).
Proof.
  unfold item_url, url_of, py_get. rewrite !por_ok.
  destruct (truthy (dict_get d (lit "url") JNull)); [reflexivity|].
  destruct (truthy (dict_get d (lit "link") JNull)); reflexivity.
Qed.

Lemma item_snippet_obj (d : dict) : item_snippet (JObj d) = Ok (snippet_of d).
Proof.
  unfold item_snippet, snippet_of, py_get. rewrite !por_ok.
  destruct (truthy (dict_get d (lit "description") JNull)); [reflexivity|].
  destruct (truthy (dict_get d (lit "snippet") JNull)); reflexivity.
Qed.

Lemma item_title_obj (d : dict) :
  item_title (JObj d) =
  if title_ok d then Ok (title_of d) else Raise AttributeError.
Proof.
  unfold item_title, title_ok, title_of, py_get. rewrite por_ok.
  destruct (truthy (dict_get d (lit "title") JNull)); [reflexivity|].
  simpl rbind.
  destruct (dict_get d (lit "source") (JObj [])) as [| | | | | |sd];
    try reflexivity.
  cbn [rbind py_get]. rewrite por_ok.
  destruct (truthy (dict_get sd (lit "title") JNull)); reflexivity.
Qed.

Lemma table_block_obj (i : nat) (d : dict) :
  table_block lib i (JObj d) =
  if title_ok d
  then match snippet_of d with
       | JStr s => Ok (block_of lib i (title_of d) (url_of d) s)
       | _ => Raise AttributeError
       end
  else Raise AttributeError.
Proof.
  unfold table_block.
  rewrite item_title_obj, item_url_obj, item_snippet_obj.
  destruct (title_ok d); [|reflexivity].
  simpl rbind. destruct (snippet_of d); reflexivity.
Qed.

Lemma table_block_renderable (i : nat) (item : jval) :
  table_block lib i item =
  if renderable item then Ok (block_for lib i item) else Raise AttributeError.
Proof.
  destruct item as [| | | | | |d]; try reflexivity.
  rewrite table_block_obj. unfold renderable, block_for.
  destruct (title_ok d); [|reflexivity].
  destruct (snippet_of d); reflexivity.
Qed.

Lemma table_blocks_renderable (items : list jval) :
  forall i,
    table_blocks lib i items =
    if forallb renderable items
    then Ok (blocks_for lib i items)
    else Raise AttributeError.
Proof.
  induction items as [|item items IH]; intros i; simpl; [reflexivity|].
  rewrite table_block_renderable.
  destruct (renderable item); simpl; [|reflexivity].
  rewrite IH. destruct (forallb renderable items); reflexivity.
Qed.

Lemma compact_table_renderable (items : list jval) :
  compact_table lib (JArr items) =
  if forallb renderable items
  then Ok (join newline (blocks_for lib 1 items))
  else Raise AttributeError.
Proof.
  unfold compact_table. simpl. rewrite table_blocks_renderable.
  destruct (forallb renderable items); reflexivity.
Qed.

Lemma blocks_for_length (items : list jval) :
  forall i, List.length (blocks_for lib i items) = List.length items.
Proof.
  induction items as [|item items IH]; intros i; simpl;
    [reflexivity | rewrite IH; reflexivity].
Qed.

Lemma blocks_for_nth (items : list jval) :
  forall i k item,
    nth_error items k = Some item ->
    nth_error (blocks_for lib i items) k = Some (block_for lib (i + k) item).
Proof.
  induction items as [|x items IH]; intros i k item; destruct k; simpl;
    try discriminate.
  - intros H; inversion H; subst. rewrite Nat.add_0_r. reflexivity.
  - intros H. rewrite (IH (S i) k item H). f_equal. f_equal. lia.
Qed.

Lemma forallb_nth {A} (p : A -> bool) (l : list A) (k : nat) (x : A) :
  forallb p l = true -> nth_error l k = Some x -> p x = true.
Proof.
  intros F H. rewrite forallb_forall in F. apply F.
  eapply nth_error_In; eauto.
Qed.

(** A falsy title with a [source] that is not a document. *)
Lemma bad_source_not_renderable (d : dict) (v : jval) :
  truthy (dict_get d (lit "title") JNull) = false ->
  lookup (lit "source") d = Some v -> is_dict v = false ->
  renderable (JObj d) = false.
Proof.
  intros T S D. unfold renderable, title_ok, dict_get at 2.
  rewrite T, S, D. reflexivity.
Qed.

Lemma good_source_title_ok (d : dict) :
  lookup (lit "source") d = None \/
  (exists sd, lookup (lit "source") d = Some (JObj sd)) ->
  title_ok d = true.
Proof.
  intros [S | [sd S]]; unfold title_ok, dict_get at 2; rewrite S;
    apply orb_true_r.
Qed.

End Table.

(** C9.  In table mode, when the extracted list is empty the table
    section is the one line ["No web results in response"], no table
    follows and the renderer returns normally (exit status 0).  When the
    list is non-empty and its items render, the section is one print of
    the blocks joined by newlines, one block per item; the block of the
    item at position [k] (counted from 0) is three fields separated by a
    newline and four spaces: the number [k + 1] right-aligned in two
    columns, a period, a space and the title; then the URL; then the
    wrapped snippet. *)
Theorem table_mode (lib : Library) (data : jval) :
  (extract_web_results data = Ok (JArr []) ->
   main_table lib data =
   ([Write Stdout (lit "No web results in response" ++ newline)], Next tt) /\
   forall args,
     Namespace.table args = true ->
     ending (main_render lib args data) = Exit 0) /\
  (forall items,
     extract_web_results data = Ok (JArr items) -> items <> [] ->
     forallb renderable items = true ->
     main_table lib data =
     ([Write Stdout (join newline (blocks_for lib 1 items) ++ newline)],
      Next tt) /\
     List.length (blocks_for lib 1 items) = List.length items /\
     forall k d,
       nth_error items k = Some (JObj d) ->
       exists s,
         snippet_of d = JStr s /\
         nth_error (blocks_for lib 1 items) k =
         Some (rjust 2 (str_of_Z (Z.of_nat (S k))) ++ lit ". " ++
               py_format lib (title_of d) ++
               newline ++ lit "    " ++ py_format lib (url_of d) ++
               newline ++ lit "    " ++
               textwrap_fill lib (truncate (collapse s)) 92)).
Proof.
  split.
  - intros E.
    pose proof (main_table_empty lib data E eq_refl) as T.
    split; [exact T|].
    intros args A. rewrite main_render_flags, A, T. unfold ending.
    destruct (Namespace.json args); reflexivity.
  - intros items E N R.
    split; [|split].
    + apply (main_table_printed lib data E).
      * destruct items; [contradiction | reflexivity].
      * rewrite compact_table_renderable, R. reflexivity.
    + apply blocks_for_length.
    + intros k d H.
      pose proof (forallb_nth renderable items k R H) as Q.
      simpl in Q. apply andb_true_iff in Q. destruct Q as [_ Q].
      rewrite (blocks_for_nth lib items 1 k H). simpl block_for.
      destruct (snippet_of d) as [| | | |s| |]; try discriminate Q.
      exists s. split; reflexivity.
Qed.

Lemma table_mode_witness :
  main_table Sample.lib (JObj []) =
  ([Write Stdout (lit "No web results in response" ++ newline)], Next tt) /\
  main_table Sample.lib Sample.doc =
  ([Write Stdout (lit " 1. T" ++ newline ++ lit "    http://x" ++ newline ++
                  lit "    d e" ++ newline)], Next tt).
Proof.
  split.
  - destruct (table_mode Sample.lib (JObj [])) as (empty & _).
    apply empty. reflexivity.
  - destruct (table_mode Sample.lib Sample.doc) as (_ & blocks).
    destruct (blocks [Sample.item]) as (run & _).
    + reflexivity.
    + discriminate.
    + reflexivity.
    + rewrite run. reflexivity.
Defined.

Lemma output_modes_witness :
  main_render Sample.lib (Namespace.set_table true defaults) Sample.doc =
  ([Write Stdout (lit " 1. T" ++ newline ++ lit "    http://x" ++ newline ++
                  lit "    d e" ++ newline)], Next tt) /\
  main_render Sample.lib
    (Namespace.set_json true (Namespace.set_table true defaults)) (JObj []) =
  ([Write Stdout (lit "{}" ++ newline);
    Write Stdout ((newline ++ lit "---" ++ newline) ++ newline);
    Write Stdout (lit "No web results in response" ++ newline)], Next tt).
Proof.
  split.
  - destruct (output_modes Sample.lib (Namespace.set_table true defaults)
                           Sample.doc)
      as (table_only & _ & _ & _ & printed).
    rewrite (table_only eq_refl eq_refl).
    rewrite (printed (JArr [Sample.item])
                     (lit " 1. T" ++ newline ++ lit "    http://x" ++
                      newline ++ lit "    d e")
                     eq_refl eq_refl eq_refl).
    reflexivity.
  - destruct (output_modes Sample.lib
                (Namespace.set_json true (Namespace.set_table true defaults))
                (JObj []))
      as (_ & _ & _ & both & _).
    rewrite (both eq_refl eq_refl). reflexivity.
Defined.

(** C10, as the code has it.  [compact_table] is partial on decoded
    JSON items.  An item that is a document with an absent or falsy
    [title] and a [source] that is not a document raises
    ([AttributeError]) instead of falling back to the empty string, and
    so does every list that contains it.  An item that is a document
    whose [source] is absent or a document renders without error
    provided the value its snippet is taken from ([description] if
    truthy, else [snippet] if truthy, else the empty string) is a
    string.  In general a list renders exactly when every item is a
    document that passes the title lookup and has a string for its
    snippet. *)
Theorem compact_table_partial (lib : Library) :
  (forall i d v,
     truthy (dict_get d (lit "title") JNull) = false ->
     lookup (lit "source") d = Some v -> is_dict v = false ->
     table_block lib i (JObj d) = Raise AttributeError /\
     item_title (JObj d) = Raise AttributeError /\
     forall before after,
       compact_table lib (JArr (before ++ JObj d :: after))
       = Raise AttributeError) /\
  (forall d,
     lookup (lit "source") d = None \/
     (exists sd, lookup (lit "source") d = Some (JObj sd)) ->
     is_str (snippet_of d) = true ->
     compact_table lib (JArr [JObj d]) = Ok (block_for lib 1 (JObj d))) /\
  (forall items,
     compact_table lib (JArr items) =
     if forallb renderable items
     then Ok (join newline (blocks_for lib 1 items))
     else Raise AttributeError).
Proof.
  split; [|split].
  - intros i d v T S D.
    pose proof (bad_source_not_renderable d T S D) as R.
    split; [rewrite table_block_renderable, R; reflexivity|].
    split.
    + rewrite item_title_obj.
      unfold renderable in R. apply andb_false_iff in R.
      destruct R as [R | R]; [rewrite R; reflexivity|].
      unfold title_ok, dict_get at 2. rewrite T, S, D. reflexivity.
    + intros before after. rewrite compact_table_renderable.
      rewrite forallb_app. cbn [forallb]. rewrite R.
      rewrite andb_false_r. reflexivity.
  - intros d S Q. rewrite compact_table_renderable. cbn [forallb].
    unfold renderable. rewrite (@good_source_title_ok d S), Q. reflexivity.
  - apply compact_table_renderable.
Qed.

Lemma compact_table_partial_witness :
  compact_table Sample.lib
    (JArr [JObj [(lit "source", JStr (lit "news"))]]) = Raise AttributeError /\
  compact_table Sample.lib (JArr [Sample.item]) =
  Ok (lit " 1. T" ++ newline ++ lit "    http://x" ++ newline ++
      lit "    d e").
Proof.
  destruct (compact_table_partial Sample.lib) as (raises & renders & _).
  split.
  - destruct (raises 1%nat [(lit "source", JStr (lit "news"))]
                     (JStr (lit "news")) eq_refl eq_refl eq_refl)
      as (_ & _ & inside).
    apply (inside [] []).
  - unfold Sample.item. rewrite renders.
    + reflexivity.
    + left. reflexivity.
    + reflexivity.
Defined.

(** C10 as stated fails on [{"description": 5}]: the item has no
    [source], and [compact_table] raises, because the number has no
    [split] method. *)
Lemma compact_table_raises_without_source :
  lookup (lit "source") [(lit "description", JInt 5)] = None /\
  compact_table Sample.lib (JArr [JObj [(lit "description", JInt 5)]])
  = Raise AttributeError.
Proof. split; reflexivity. Qed.

(** C4.  For an item whose title lookup succeeds and whose snippet is
    the string [s], the third field of its block is
    [textwrap.fill(t, width=92)] where [t] is [s] collapsed and then
    truncated.  The collapsed string has no whitespace but single spaces
    between words, keeps the non-whitespace characters of [s] in order,
    and is [s] itself when [s] is already of that form.  If the
    collapsed string is longer than 160 characters, [t] is its first 157
    characters followed by ["..."], 160 characters in all; otherwise
    [t] is the collapsed string.  In particular a snippet of 200
    characters, single-spaced, gives its first 157 characters and the
    three-character ellipsis. *)
Theorem snippet_rendering (lib : Library) (i : nat) (d : dict) (s : pystr) :
  title_ok d = true -> snippet_of d = JStr s ->
  table_block lib i (JObj d) =
  Ok (rjust 2 (str_of_Z (Z.of_nat i)) ++ lit ". " ++
      py_format lib (title_of d) ++
      newline ++ lit "    " ++ py_format lib (url_of d) ++
      newline ++ lit "    " ++
      textwrap_fill lib (truncate (join (lit " ") (split s))) 92) /\
  single_spaced (join (lit " ") (split s)) = true /\
  List.concat (split s) = filter (fun c => negb (is_space c)) s /\
  (single_spaced s = true -> join (lit " ") (split s) = s) /\
  ((160 < List.length (join (lit " ") (split s)))%nat ->
   truncate (join (lit " ") (split s)) =
   firstn 157 (join (lit " ") (split s)) ++ lit "..." /\
   List.length (firstn 157 (join (lit " ") (split s))) = 157%nat /\
   List.length (truncate (join (lit " ") (split s))) = 160%nat) /\
  ((List.length (join (lit " ") (split s)) <= 160)%nat ->
   truncate (join (lit " ") (split s)) = join (lit " ") (split s)) /\
  (List.length s = 200%nat -> single_spaced s = true ->
   truncate (join (lit " ") (split s)) = firstn 157 s ++ lit "..." /\
   List.length (firstn 157 s) = 157%nat).
Proof.
  intros T S.
  split; [rewrite table_block_obj, T, S; reflexivity|].
  split; [apply collapse_single_spaced|].
  split; [apply (split_from_content s [])|].
  split; [apply collapse_fixed|].
  split; [apply truncate_long|].
  split; [apply truncate_short|].
  intros L F. pose proof (collapse_fixed s F) as C. unfold collapse in C.
  rewrite C.
  destruct (@truncate_long s) as (A & B & _); [lia | auto].
Qed.

Lemma snippet_rendering_witness :
  table_block Sample.lib 1 (JObj Sample.long_item) =
  Ok (lit " 1. T" ++ newline ++ lit "    http://x" ++ newline ++ lit "    " ++
      textwrap_fill Sample.lib
        (lit "d " ++ repeat 120%N 155 ++ lit "...") 92) /\
  List.length (truncate (join (lit " ") (split Sample.long_snippet)))
  = 160%nat.
Proof.
  destruct (@snippet_rendering Sample.lib 1 Sample.long_item
              Sample.long_snippet eq_refl eq_refl)
    as (block & _ & _ & _ & long & _).
  split.
  - rewrite block. reflexivity.
  - apply long. apply Nat.ltb_lt. reflexivity.
Defined.

(** ** Two runs, end to end *)

Example run_with_table :
  main Sample.lib
       (Sample.world (Some (lit "key")) [lit "--q"; lit "test"; lit "--table"]
                     (Sample.ok_response Sample.doc))
  = ([HttpGet (the_request (lit "key")
                 (Namespace.set_table true
                    (Namespace.set_q (Some (lit "test")) defaults)));
      Write Stdout (lit " 1. T" ++ newline ++ lit "    http://x" ++ newline ++
                    lit "    d e" ++ newline)],
     Next tt).
Proof. reflexivity. Qed.

Example run_unauthorized :
  main Sample.lib
       (Sample.world (Some (lit "key")) [lit "--q"; lit "test"]
          (GetReturned {| status_code := 401;
                          reason := lit "Unauthorized";
                          url := API_URL;
                          text := lit "denied";
                          decoded := inl (lit "Expecting value") |}))
  = ([HttpGet (the_request (lit "key")
                 (Namespace.set_q (Some (lit "test")) defaults));
      Write Stderr
        (lit "HTTP error: 401 Client Error: Unauthorized for url: " ++
         API_URL ++ lit " - denied" ++ newline)],
     Stop (Exit 2)).
Proof. reflexivity. Qed.

(** * Further properties of the code *)

(** ** The request builder, continued *)

Lemma dict_set_same (k : pystr) (v : pval) (d : params) :
  In (k, v) (dict_set k v d).
Proof.
  induction d as [|[k' v'] d IH]; simpl; [tauto|].
  destruct (pystr_eqb k k'); simpl; tauto.
Qed.

Ltac find_entry :=
  repeat first
    [ apply dict_set_same
    | apply dict_set_other; [vm_compute; discriminate|] ];
  simpl; tauto.

Lemma build_params_q (args : Namespace.t) :
  In (lit "q", of_attr (Namespace.q args)) (build_params args).
Proof.
  unfold build_params.
  destruct (given (Namespace.freshness args));
    destruct (negb (Namespace.extra_snippets args =? 0)%Z);
    destruct (negb (Namespace.summary args =? 0)%Z); find_entry.
Qed.

(** X1.  The mapping [build_params] returns binds the seven fixed keys
    to the options as they are ([search_lang] to the [lang] option), and
    each optional key, when its option is truthy, to: the freshness
    token itself, the integer 1 for [extra_snippets], the integer 1 for
    [summary]. *)
Theorem build_params_values (args : Namespace.t) :
  let p := build_params args in
  In (lit "q", of_attr (Namespace.q args)) p /\
  In (lit "count", PInt (Namespace.count args)) p /\
  In (lit "offset", PInt (Namespace.offset args)) p /\
  In (lit "country", PStr (Namespace.country args)) p /\
  In (lit "search_lang", PStr (Namespace.lang args)) p /\
  In (lit "spellcheck", PInt (Namespace.spellcheck args)) p /\
  (given (Namespace.freshness args) = true ->
   In (lit "freshness", of_attr (Namespace.freshness args)) p) /\
  (Namespace.extra_snippets args <> 0%Z ->
   In (lit "extra_snippets", PInt 1) p) /\
  (Namespace.summary args <> 0%Z -> In (lit "summary", PInt 1) p).
Proof.
  unfold build_params.
  destruct (given (Namespace.freshness args)) eqn:F;
    destruct (Namespace.extra_snippets args =? 0)%Z eqn:E;
    destruct (Namespace.summary args =? 0)%Z eqn:S;
    cbn [negb]; cbv zeta;
    repeat split;
    try (intros H; try discriminate H;
         try (apply Z.eqb_eq in E; contradiction);
         try (apply Z.eqb_eq in S; contradiction));
    find_entry.
Qed.

Lemma build_params_values_witness :
  In (lit "freshness", PStr (lit "pw"))
     (build_params
        (Namespace.set_freshness (Some (lit "pw"))
           (Namespace.set_summary 1 defaults))) /\
  In (lit "summary", PInt 1)
     (build_params
        (Namespace.set_freshness (Some (lit "pw"))
           (Namespace.set_summary 1 defaults))).
Proof.
  destruct (build_params_values
              (Namespace.set_freshness (Some (lit "pw"))
                 (Namespace.set_summary 1 defaults)))
    as (_ & _ & _ & _ & _ & _ & fresh & _ & summ).
  split; [apply fresh; reflexivity | apply summ; discriminate].
Defined.

Ltac distinct_keys :=
  vm_compute;
  repeat (constructor;
          [ let H := fresh in
            intros H; simpl in H;
            repeat (destruct H as [H | H]; [discriminate H|]); exact H
          | ]);
  constructor.

(** X2.  The keys of the mapping come in a fixed order: the seven fixed
    keys as the source lists them, then [freshness], [extra_snippets]
    and [summary], each only when its option is truthy; no key occurs
    twice. *)
Theorem build_params_order (args : Namespace.t) :
  keys (build_params args) =
  [ lit "q"; lit "count"; lit "offset"; lit "country"; lit "search_lang";
    lit "safesearch"; lit "spellcheck" ]
  ++ (if given (Namespace.freshness args) then [lit "freshness"] else [])
  ++ (if (Namespace.extra_snippets args =? 0)%Z
      then [] else [lit "extra_snippets"])
  ++ (if (Namespace.summary args =? 0)%Z then [] else [lit "summary"]) /\
  NoDup (keys (build_params args)).
Proof.
  rewrite build_params_keys. unfold always_keys, when.
  destruct (given (Namespace.freshness args));
    destruct (Namespace.extra_snippets args =? 0)%Z;
    destruct (Namespace.summary args =? 0)%Z; cbn [negb];
    (split; [reflexivity | distinct_keys]).
Qed.

(** X3.  A safe-search level outside the table is sent as ["off"]: the
    lookup in [SAFES_SEARCH_MAP] has that default. *)
Theorem build_params_level_default (args : Namespace.t) :
  ~ level_ok (Namespace.safesearch args) ->
  In (lit "safesearch", PStr (lit "off")) (build_params args).
Proof.
  intros N.
  assert (E : map_get SAFES_SEARCH_MAP (Namespace.safesearch args) (lit "off")
              = lit "off").
  { unfold map_get, SAFES_SEARCH_MAP, level_ok in *. simpl in *.
    destruct (Namespace.safesearch args =? 0)%Z eqn:E0;
      [apply Z.eqb_eq in E0; exfalso; apply N; auto|].
    destruct (Namespace.safesearch args =? 1)%Z eqn:E1;
      [apply Z.eqb_eq in E1; exfalso; apply N; auto|].
    destruct (Namespace.safesearch args =? 2)%Z eqn:E2;
      [apply Z.eqb_eq in E2; exfalso; apply N; auto|].
    reflexivity. }
  pose proof (build_params_safesearch args) as H. rewrite E in H. exact H.
Qed.

Lemma build_params_level_default_witness :
  In (lit "safesearch", PStr (lit "off"))
     (build_params (Namespace.set_safesearch 7 defaults)).
Proof.
  apply build_params_level_default. simpl.
  intros [E | [E | [E | []]]]; discriminate E.
Defined.

(** ** The argument resolver, continued *)

Section Options.

Variable lib : Library.

Ltac stored H s :=
  unfold and_then in H;
  try (destruct (as_int lib _ s); [discriminate H|]);
  try (destruct (as_choice _ s); [discriminate H|]);
  try (destruct (as_float lib s); [discriminate H|]);
  inversion H; subst; clear H.

Lemma store_frame (d d' : dest) (arg : option pystr) (ns ns' : Namespace.t) :
  store lib d arg ns = inr ns' -> dest_eqb d' d = false ->
  attr d' ns' = attr d' ns.
Proof.
  intros H N. destruct ns.
  destruct d, arg as [s|]; simpl in H; try discriminate H; stored H s;
    destruct d'; simpl in N; try discriminate N; reflexivity.
Qed.

Lemma consume_frame (d : dest) (toks : list token) :
  forall ns seen ns' seen',
    consume lib toks ns seen = Parsed ns' seen' ->
    mentions d toks = false -> attr d ns' = attr d ns.
Proof.
  induction toks as [|t toks IH]; simpl; intros ns seen ns' seen' H M.
  - inversion H; subst; reflexivity.
  - destruct t as [d0 arg | | msg]; try discriminate H.
    apply orb_false_iff in M. destruct M as [M0 M].
    destruct (store lib d0 arg ns) as [msg | ns1] eqn:S; [discriminate H|].
    rewrite (IH _ _ _ _ H M). eapply store_frame; eauto.
Qed.

Lemma store_choices (d : dest) (arg : option pystr) (ns ns' : Namespace.t) :
  store lib d arg ns = inr ns' -> choices_kept ns -> choices_kept ns'.
Proof.
  intros H K. destruct ns. unfold choices_kept in *. simpl in K.
  destruct d, arg as [s|]; simpl in H; try discriminate H;
    unfold and_then in H;
    try (destruct (as_int lib _ s) eqn:E; [discriminate H|];
         try apply as_int_choices in E);
    try (destruct (as_choice _ s) eqn:E; [discriminate H|]);
    try (destruct (as_float lib s); [discriminate H|]);
    inversion H; subst; clear H; simpl; try tauto.
  unfold as_choice in E.
  destruct (existsb (pystr_eqb s)
                    [lit "pd"; lit "pw"; lit "pm"; lit "py"]) eqn:X;
    [|discriminate E].
  inversion E; subst. apply existsb_exists in X.
  destruct X as (x & Hx & Q). apply pystr_eqb_eq in Q. subst x.
  split; [right; eauto | tauto].
Qed.

Lemma consume_choices (toks : list token) :
  forall ns seen ns' seen',
    consume lib toks ns seen = Parsed ns' seen' ->
    choices_kept ns -> choices_kept ns'.
Proof.
  induction toks as [|t toks IH]; simpl; intros ns seen ns' seen' H K.
  - inversion H; subst; assumption.
  - destruct t as [d arg | | msg]; try discriminate H.
    destruct (store lib d arg ns) as [msg | ns1] eqn:S; [discriminate H|].
    eapply IH; [exact H|]. eapply store_choices; eauto.
Qed.

Lemma defaults_choices : choices_kept defaults.
Proof. unfold choices_kept. simpl. tauto. Qed.

Lemma store_switches (d : dest) (arg : option pystr) (ns ns' : Namespace.t) :
  store lib d arg ns = inr ns' ->
  Namespace.json ns' = Namespace.json ns || dest_eqb Djson d /\
  Namespace.table ns' = Namespace.table ns || dest_eqb Dtable d.
Proof.
  intros H. destruct ns.
  destruct d, arg as [s|]; simpl in H; try discriminate H; stored H s;
    simpl; rewrite ?orb_false_r, ?orb_true_r; split; reflexivity.
Qed.

Lemma consume_switches (toks : list token) :
  forall ns seen ns' seen',
    consume lib toks ns seen = Parsed ns' seen' ->
    Namespace.json ns' = Namespace.json ns || mentions Djson toks /\
    Namespace.table ns' = Namespace.table ns || mentions Dtable toks.
Proof.
  induction toks as [|t toks IH]; simpl; intros ns seen ns' seen' H.
  - inversion H; subst. rewrite !orb_false_r. split; reflexivity.
  - destruct t as [d arg | | msg]; try discriminate H.
    destruct (store lib d arg ns) as [msg | ns1] eqn:S; [discriminate H|].
    destruct (IH _ _ _ _ H) as [J T].
    destruct (store_switches _ _ _ S) as [J1 T1].
    rewrite J, T, J1, T1, !orb_assoc. split; reflexivity.
Qed.

Lemma store_q (d : dest) (arg : option pystr) (ns ns' : Namespace.t) :
  store lib d arg ns = inr ns' ->
  if dest_eqb Dq d
  then exists s, arg = Some s /\ Namespace.q ns' = Some s
  else Namespace.q ns' = Namespace.q ns.
Proof.
  intros H. destruct ns.
  destruct d, arg as [s|]; simpl in H; try discriminate H; stored H s;
    simpl; eauto.
Qed.

Lemma consume_seen (toks : list token) :
  forall ns seen ns' seen',
    consume lib toks ns seen = Parsed ns' seen' ->
    seen' = seen || mentions Dq toks /\
    ((seen = true -> exists s, Namespace.q ns = Some s) ->
     seen' = true -> exists s, Namespace.q ns' = Some s).
Proof.
  induction toks as [|t toks IH]; simpl; intros ns seen ns' seen' H.
  - inversion H; subst. rewrite orb_false_r. split; auto.
  - destruct t as [d arg | | msg]; try discriminate H.
    destruct (store lib d arg ns) as [msg | ns1] eqn:S; [discriminate H|].
    destruct (IH _ _ _ _ H) as [E Q].
    assert (D : is_q d = dest_eqb Dq d) by (destruct d; reflexivity).
    split; [rewrite E, D, orb_assoc; reflexivity|].
    intros Q0 T. apply Q; [|exact T].
    intros X. pose proof (store_q _ _ _ S) as SQ. rewrite D in X.
    destruct (dest_eqb Dq d).
    + destruct SQ as (s & _ & SQ). eauto.
    + rewrite SQ. apply Q0. rewrite orb_false_r in X. exact X.
Qed.

End Options.

(** X4.  An option that does not occur on the command line keeps its
    declared default in the parsed namespace: 10 results, offset 0,
    country ["us"], language ["en"], level 0, no freshness, spellcheck
    1, no extra snippets, no summary, both switches off, a timeout of
    15.0 seconds, no save path. *)
Theorem parse_args_defaults (lib : Library) (argv : list pystr)
        (t : list event) (args : Namespace.t) (d : dest) :
  parse_args lib argv = (t, Next args) ->
  mentions d (fst (argparse_scan lib argv)) = false ->
  attr d args = attr d defaults /\
  map (fun d => attr d defaults)
      [Dcount; Doffset; Dcountry; Dlang; Dsafesearch; Dfreshness;
       Dspellcheck; Dextra_snippets; Dsummary; Djson; Dtable; Dtimeout;
       Dsave]
  = [AInt 10; AInt 0; AStr (lit "us"); AStr (lit "en"); AInt 0; AOpt None;
     AInt 1; AInt 0; AInt 0; ABool false; ABool false;
     AFloat (S754_finite false 8444249301319680 (-49)); AOpt None].
Proof.
  intros P M. split; [|reflexivity].
  destruct (parse_args_next _ _ P) as (_ & seen & C).
  eapply consume_frame; eauto.
Qed.

Lemma parse_args_defaults_witness :
  attr Dcount (Namespace.set_q (Some (lit "test")) defaults) = AInt 10.
Proof.
  apply (@parse_args_defaults Sample.lib [lit "--q"; lit "test"] []
           (Namespace.set_q (Some (lit "test")) defaults) Dcount
           eq_refl eq_refl).
Defined.

(** X5.  After a successful parse the restricted options hold one of
    their choices: [freshness] is unset or one of [pd], [pw], [pm],
    [py]; [spellcheck], [extra_snippets] and [summary] are 0 or 1. *)
Theorem parse_args_choices (lib : Library) (argv : list pystr)
        (t : list event) (args : Namespace.t) :
  parse_args lib argv = (t, Next args) -> choices_kept args.
Proof.
  intros P. destruct (parse_args_next _ _ P) as (_ & seen & C).
  eapply consume_choices; [exact C | apply defaults_choices].
Qed.

Lemma parse_args_choices_witness :
  choices_kept
    (Namespace.set_freshness (Some (lit "pw"))
       (Namespace.set_q (Some (lit "test")) defaults)).
Proof.
  apply (@parse_args_choices Sample.lib
           [lit "--q"; lit "test"; lit "--freshness"; lit "pw"] [] _ eq_refl).
Defined.

Lemma consume_last_q (lib : Library) (toks : list token) :
  forall ns seen ns' seen',
    consume lib toks ns seen = Parsed ns' seen' ->
    mentions Dq toks = true ->
    exists before s after,
      toks = before ++ TOpt Dq (Some s) :: after /\
      mentions Dq after = false /\
      Namespace.q ns' = Some s.
Proof.
  induction toks as [|t toks IH]; simpl; intros ns seen ns' seen' H M;
    [discriminate M|].
  destruct t as [d arg | | msg]; try discriminate H.
  destruct (store lib d arg ns) as [msg | ns1] eqn:S; [discriminate H|].
  destruct (mentions Dq toks) eqn:R.
  - destruct (IH _ _ _ _ H eq_refl) as (before & s & after & -> & A & Q).
    exists (TOpt d arg :: before), s, after. auto.
  - rewrite orb_false_r in M.
    assert (d = Dq) by (destruct d; try discriminate M; reflexivity).
    subst d. pose proof (store_q lib _ _ _ S) as SQ. simpl in SQ.
    destruct SQ as (s & -> & SQ).
    exists [], s, toks. repeat split; auto.
    pose proof (consume_frame lib Dq toks _ _ H R) as F. simpl in F.
    inversion F as [F']. rewrite F'. exact SQ.
Qed.

(** X6.  The query is required.  After a successful parse [--q] occurs
    among the recognised options, [q] holds the string attached to its
    last occurrence, and the request carries that string under [q]; a
    command line on which [--q] does not occur never parses. *)
Theorem parse_args_requires_q (lib : Library) (argv : list pystr) :
  (forall t args,
     parse_args lib argv = (t, Next args) ->
     exists before s after,
       fst (argparse_scan lib argv) = before ++ TOpt Dq (Some s) :: after /\
       mentions Dq after = false /\
       Namespace.q args = Some s /\
       In (lit "q", PStr s) (build_params args)) /\
  (mentions Dq (fst (argparse_scan lib argv)) = false ->
   exists t o, parse_args lib argv = (t, Stop o)).
Proof.
  assert (A : forall t args,
             parse_args lib argv = (t, Next args) ->
             mentions Dq (fst (argparse_scan lib argv)) = true /\
             exists before s after,
               fst (argparse_scan lib argv)
               = before ++ TOpt Dq (Some s) :: after /\
               mentions Dq after = false /\
               Namespace.q args = Some s /\
               In (lit "q", PStr s) (build_params args)).
  { intros t args P. unfold parse_args in P.
    destruct (argparse_scan lib argv) as [toks extras]; simpl.
    destruct (consume lib toks defaults false) as [ns seen | | msg] eqn:C;
      try discriminate P.
    destruct seen; simpl in P; [|discriminate P].
    destruct extras; [|discriminate P]. inversion P; subst.
    destruct (consume_seen _ _ _ _ C) as [E _]. simpl in E.
    split; [symmetry; exact E|].
    destruct (consume_last_q lib toks _ _ C (eq_sym E))
      as (before & s & after & T & M & Q).
    exists before, s, after. repeat split; auto.
    pose proof (build_params_q args) as V. rewrite Q in V. exact V. }
  split.
  - intros t args P. apply (A t args P).
  - intros M. destruct (parse_args lib argv) as [t [args | o]] eqn:P; [|eauto].
    destruct (A t args eq_refl) as [M' _]. congruence.
Qed.

Lemma parse_args_requires_q_witness :
  (exists before s after,
     fst (argparse_scan Sample.lib
            [lit "--q"; lit "first"; lit "--q"; lit "test"])
     = before ++ TOpt Dq (Some s) :: after /\
     mentions Dq after = false /\
     Namespace.q (Namespace.set_q (Some (lit "test"))
                    (Namespace.set_q (Some (lit "first")) defaults))
     = Some s) /\
  exists t o, parse_args Sample.lib [lit "--count"; lit "3"] = (t, Stop o).
Proof.
  destruct (parse_args_requires_q Sample.lib
              [lit "--q"; lit "first"; lit "--q"; lit "test"])
    as (parsed & _).
  destruct (parse_args_requires_q Sample.lib [lit "--count"; lit "3"])
    as (_ & missing).
  split.
  - destruct (parsed [] _ eq_refl) as (before & s & after & T & M & Q & _).
    exists before, s, after. auto.
  - apply missing. reflexivity.
Defined.

(** X7.  After a successful parse each of the two output switches is
    on exactly when its option occurs on the command line. *)
Theorem parse_args_switches (lib : Library) (argv : list pystr)
        (t : list event) (args : Namespace.t) :
  parse_args lib argv = (t, Next args) ->
  Namespace.json args = mentions Djson (fst (argparse_scan lib argv)) /\
  Namespace.table args = mentions Dtable (fst (argparse_scan lib argv)).
Proof.
  intros P. destruct (parse_args_next _ _ P) as (_ & seen & C).
  apply consume_switches in C. exact C.
Qed.

Lemma parse_args_switches_witness :
  Namespace.table
    (Namespace.set_table true (Namespace.set_q (Some (lit "test")) defaults))
  = true.
Proof.
  apply (@parse_args_switches Sample.lib
           [lit "--q"; lit "test"; lit "--table"] [] _ eq_refl).
Defined.

(** ** Runs of [main], continued *)

Section Runs.

Variable lib : Library.

Lemma parse_args_stop (argv : list pystr) (t : list event) (o : outcome) :
  parse_args lib argv = (t, Stop o) ->
  (o = Exit 0 /\ t = [Write Stdout (argparse_help lib)]) \/
  (o = Exit 2 /\ exists msg, t = [Write Stderr (argparse_usage lib msg)]).
Proof.
  unfold parse_args. destruct (argparse_scan lib argv) as [toks extras].
  destruct (consume lib toks defaults false) as [ns seen | | msg]; simpl.
  - destruct seen; simpl.
    + destruct extras; simpl; [discriminate|].
      intros H; inversion H; subst. right. eauto.
    + intros H; inversion H; subst. right. eauto.
  - intros H; inversion H; subst. left. auto.
  - intros H; inversion H; subst. right. eauto.
Qed.

Lemma main_request_cases (w : World) (rq : Request) :
  (exists data, main_request w rq = ([HttpGet rq], Next data)) \/
  (exists msg c,
     main_request w rq = ([HttpGet rq; Write Stderr msg], Stop (Exit c)) /\
     (c = 2 \/ c = 3)%Z).
Proof.
  unfold main_request.
  destruct (send w rq) as [msg | r]; [right; simpl; eauto|].
  destruct (raise_for_status r); [right; simpl; eauto|].
  destruct (decoded r) as [msg | data]; [right | left]; simpl; eauto.
Qed.

(** What follows a successful request: at most a file write, then
    prints on the standard stream. *)
Lemma after_request_events (w : World) (args : Namespace.t) (data : jval)
      (e : event) :
  In e (trace (main_save lib w args data ;; main_render lib args data)%proc) ->
  is_get e = false /\ is_stderr e = false.
Proof.
  rewrite pbind_trace. intros H. apply in_app_or in H. destruct H as [H | H].
  - apply main_save_only in H. destruct H as (p & _ & _ & _ & ->).
    split; reflexivity.
  - destruct (snd (main_save lib w args data)) as [[] | o]; [|contradiction].
    pose proof (main_render_stdout lib args data) as F.
    rewrite Forall_forall in F. specialize (F e H).
    destruct e as [[] | |]; simpl in *; try discriminate; split; reflexivity.
Qed.

(** The four ways a run goes. *)
Lemma main_cases (w : World) :
  (given (getenv w) = false /\
   main lib w =
   ([Write Stderr (lit "Error: BRAVE_SEARCH_API_KEY is not set" ++ newline)],
    Stop (Exit 1))) \/
  (exists t o,
     given (getenv w) = true /\
     parse_args lib (argv w) = (t, Stop o) /\ main lib w = (t, Stop o)) \/
  (exists key args msg c,
     getenv w = Some key /\ given (Some key) = true /\
     parse_args lib (argv w) = pret args /\ (c = 2 \/ c = 3)%Z /\
     main lib w =
     ([HttpGet (the_request key args); Write Stderr msg], Stop (Exit c))) \/
  (exists key args data,
     getenv w = Some key /\ given (Some key) = true /\
     parse_args lib (argv w) = pret args /\
     main_request w (the_request key args)
     = ([HttpGet (the_request key args)], Next data) /\
     main lib w =
     (HttpGet (the_request key args)
      :: trace (main_save lib w args data ;; main_render lib args data)%proc,
      snd (main_save lib w args data ;; main_render lib args data)%proc)).
Proof.
  destruct (given (getenv w)) eqn:G; [|left; split; [reflexivity|]].
  2:{ apply main_no_key, G. }
  right. destruct (given_some _ G) as (c & k & E).
  destruct (parse_args lib (argv w)) as [t [args | o]] eqn:P.
  2:{ left. exists t, o. repeat split; auto.
      apply main_parse_stopped; assumption. }
  right. destruct (parse_args_next _ _ P) as (-> & _).
  rewrite (main_parsed lib w E eq_refl P).
  destruct (main_request_cases w (the_request (c :: k) args))
    as [(data & R) | (msg & x & R & X)].
  - right. exists (c :: k), args, data. rewrite R, pbind_next.
    repeat split; auto.
  - left. exists (c :: k), args, msg, x. rewrite R. repeat split; auto.
Qed.

End Runs.

(** X8.  A run sends at most one request, and a request is its first
    event.  That request goes to the fixed endpoint, carries the
    credential of the environment in the header [X-Subscription-Token]
    and [Accept: application/json], the parameters [build_params] makes
    of the parsed options, and their timeout. *)
Theorem one_request (lib : Library) (w : World) (rq : Request) :
  In (HttpGet rq) (trace (main lib w)) ->
  exists key args rest,
    getenv w = Some key /\ parse_args lib (argv w) = pret args /\
    trace (main lib w) = HttpGet rq :: rest /\
    forallb (fun e => negb (is_get e)) rest = true /\
    req_url rq = API_URL /\
    req_headers rq = [ (lit "X-Subscription-Token", key);
                       (lit "Accept", lit "application/json") ] /\
    req_params rq = build_params args /\
    req_timeout rq = Namespace.timeout args.
Proof.
  intros H.
  destruct (main_cases lib w)
    as [(_ & M) | [(t & o & G & P & M) |
        [(key & args & msg & c & E & G & P & _ & M) |
         (key & args & data & E & G & P & _ & M)]]];
    rewrite M in H; simpl in H.
  - destruct H as [H | []]. discriminate H.
  - assert (Q : In (HttpGet rq) (trace (parse_args lib (argv w))))
      by (rewrite P; exact H).
    apply parse_args_quiet in Q. destruct Q as (to & d & Q). discriminate Q.
  - destruct H as [H | [H | []]]; [|discriminate H].
    inversion H; subst rq.
    exists key, args, [Write Stderr msg]. rewrite M. repeat split; auto.
  - assert (R : forallb (fun e => negb (is_get e))
                  (trace (main_save lib w args data ;;
                          main_render lib args data)%proc) = true).
    { apply forallb_forall. intros e He.
      apply after_request_events in He. destruct He as [-> _]. reflexivity. }
    destruct H as [H | H].
    + inversion H; subst rq. exists key, args. eexists. rewrite M.
      repeat split; auto.
    + rewrite forallb_forall in R. specialize (R _ H). discriminate R.
Qed.

Lemma one_request_witness :
  req_url (the_request (lit "key")
             (Namespace.set_q (Some (lit "test")) defaults)) = API_URL.
Proof.
  destruct (@one_request Sample.lib
              (Sample.world (Some (lit "key")) [lit "--q"; lit "test"]
                            (Sample.ok_response (JObj [])))
              (the_request (lit "key")
                 (Namespace.set_q (Some (lit "test")) defaults)))
    as (key & args & rest & _ & _ & _ & _ & U & _).
  - left. reflexivity.
  - exact U.
Defined.

(** X9.  A run ends with exit status 0, 1, 2 or 3 or with an uncaught
    exception.  When it ends with a non-zero exit status, nothing was
    written to the standard stream and no file was written: the only
    output is on the error stream. *)
Theorem failures_are_silent (lib : Library) (w : World) (c : Z) :
  ending (main lib w) = Exit c ->
  In c [0; 1; 2; 3]%Z /\
  (c <> 0%Z ->
   forall e, In e (trace (main lib w)) ->
             is_stdout e = false /\ is_file_write e = false).
Proof.
  intros X.
  destruct (main_cases lib w)
    as [(_ & M) | [(t & o & G & P & M) |
        [(key & args & msg & x & E & G & P & C & M) |
         (key & args & data & E & G & P & _ & M)]]];
    rewrite M in *; unfold ending in X; simpl in X.
  - inversion X; subst. split; [simpl; tauto|].
    intros _ e [<- | []]. split; reflexivity.
  - subst o.
    destruct (parse_args_stop _ _ P) as [(O & T) | (O & msg & T)];
      inversion O; subst.
    + split; [simpl; tauto|]. intros N; contradiction N; reflexivity.
    + split; [simpl; tauto|]. intros _ e [<- | []]. split; reflexivity.
  - inversion X; subst x. split; [destruct C; subst; simpl; tauto|].
    intros _ e [<- | [<- | []]]; split; reflexivity.
  - pose proof (after_request_unforced lib w args data) as U.
    unfold unforced in U.
    destruct (snd (main_save lib w args data ;;
                   main_render lib args data)%proc) as [[] | [y | e]].
    + inversion X; subst. split; [simpl; tauto|].
      intros N; contradiction N; reflexivity.
    + contradiction.
    + discriminate X.
Qed.

Lemma failures_are_silent_witness :
  is_stdout
    (Write Stderr ((lit "Request failed: " ++ lit "Read timed out.") ++
                   newline)) = false /\
  is_file_write
    (Write Stderr ((lit "Request failed: " ++ lit "Read timed out.") ++
                   newline)) = false.
Proof.
  destruct (@failures_are_silent Sample.lib
              (Sample.world (Some (lit "key")) [lit "--q"; lit "test"]
                            (GetRaised (lit "Read timed out.")))
              3 eq_refl) as (_ & silent).
  apply silent; [discriminate | right; left; reflexivity].
Defined.

Lemma main_save_failed (lib : Library) (w : World) (key : pystr)
      (args : Namespace.t) (data : jval) (path msg : pystr) :
  getenv w = Some key -> given (Some key) = true ->
  parse_args lib (argv w) = pret args ->
  main_request w (the_request key args)
  = ([HttpGet (the_request key args)], Next data) ->
  Namespace.save args = Some path -> given (Some path) = true ->
  open_w w path = Some msg ->
  main lib w =
  ([HttpGet (the_request key args)], Stop (Uncaught (OSError msg))).
Proof.
  intros E G P R S GP O. rewrite (main_parsed lib w E G P), R, pbind_next.
  unfold main_save. rewrite S, GP, O. reflexivity.
Qed.

Lemma main_save_skipped (lib : Library) (w : World) (key : pystr)
      (args : Namespace.t) (data : jval) :
  getenv w = Some key -> given (Some key) = true ->
  parse_args lib (argv w) = pret args ->
  main_request w (the_request key args)
  = ([HttpGet (the_request key args)], Next data) ->
  given (Namespace.save args) = false ->
  main lib w =
  (HttpGet (the_request key args) :: trace (main_render lib args data),
   snd (main_render lib args data)).
Proof.
  intros E G P R GS. rewrite (main_parsed lib w E G P), R, pbind_next.
  unfold main_save. rewrite GS, pbind_pret. reflexivity.
Qed.

(** X10.  After a successful request the save step has two edges.  If
    the file cannot be opened, the [OSError] propagates: the run is the
    request alone and nothing is printed.  If the save path is empty, it
    counts as absent: no file is written and the run is the request
    followed by the rendering. *)
Theorem save_edges (lib : Library) (w : World) (key : pystr)
        (args : Namespace.t) (data : jval) :
  getenv w = Some key -> given (Some key) = true ->
  parse_args lib (argv w) = pret args ->
  main_request w (the_request key args)
  = ([HttpGet (the_request key args)], Next data) ->
  (forall path msg,
     Namespace.save args = Some path -> given (Some path) = true ->
     open_w w path = Some msg ->
     main lib w =
     ([HttpGet (the_request key args)], Stop (Uncaught (OSError msg)))) /\
  (given (Namespace.save args) = false ->
   main lib w =
   (HttpGet (the_request key args) :: trace (main_render lib args data),
    snd (main_render lib args data))).
Proof.
  intros E G P R. split.
  - intros path msg. apply (@main_save_failed lib w key args data);
      assumption.
  - apply main_save_skipped; assumption.
Qed.

Lemma save_edges_witness :
  main Sample.lib
       {| getenv := Some (lit "key");
          argv := [lit "--q"; lit "test"; lit "--save"; lit "/nowhere/out"];
          send := fun _ => Sample.ok_response (JObj []);
          open_w := fun _ => Some (lit "No such file or directory") |}
  = ([HttpGet (the_request (lit "key")
                 (Namespace.set_save (Some (lit "/nowhere/out"))
                    (Namespace.set_q (Some (lit "test")) defaults)))],
     Stop (Uncaught (OSError (lit "No such file or directory")))).
Proof.
  destruct (@save_edges Sample.lib
              {| getenv := Some (lit "key");
                 argv := [lit "--q"; lit "test"; lit "--save";
                          lit "/nowhere/out"];
                 send := fun _ => Sample.ok_response (JObj []);
                 open_w := fun _ => Some (lit "No such file or directory") |}
              (lit "key")
              (Namespace.set_save (Some (lit "/nowhere/out"))
                 (Namespace.set_q (Some (lit "test")) defaults))
              (JObj []) eq_refl eq_refl eq_refl eq_refl) as (failed & _).
  apply (failed (lit "/nowhere/out") (lit "No such file or directory"));
    reflexivity.
Defined.



(** ** Extraction and the table, continued *)

(** X12.  [extract_web_results] returns on every document, and what it
    returns is the empty list or a truthy value, so the test
    [if not results] sees the empty list only; on a decoded body that is
    not a document it raises ([TypeError] or [AttributeError]). *)
Theorem extract_web_results_domain (v : jval) :
  (is_dict v = true ->
   exists r, extract_web_results v = Ok r /\
             (r = JArr [] \/ truthy r = true)) /\
  (is_dict v = false ->
   extract_web_results v = Raise TypeError \/
   extract_web_results v = Raise AttributeError).
Proof.
  split.
  - destruct v as [| | | | | |d]; try discriminate. intros _.
    rewrite extract_web_results_selected. eexists. split; [reflexivity|].
    unfold results_or_default.
    destruct (lookup (lit "results") (selected d)) as [r|]; [|left; reflexivity].
    destruct (truthy r) eqn:T; [right; exact T | left; reflexivity].
  - destruct v as [| | | |s|l|d]; try discriminate; intros _;
      try (left; reflexivity); unfold extract_web_results, py_in.
    + cbn [rbind].
      match goal with
      | |- context [if ?c then _ else _] => destruct c
      end; [left | right]; reflexivity.
    + cbn [rbind].
      match goal with
      | |- context [if ?c then _ else _] => destruct c
      end; [left | right]; reflexivity.
Qed.

Lemma extract_web_results_domain_witness :
  extract_web_results (JArr [JStr (lit "web")]) = Raise TypeError \/
  extract_web_results (JArr [JStr (lit "web")]) = Raise AttributeError.
Proof.
  apply (extract_web_results_domain (JArr [JStr (lit "web")])).
  reflexivity.
Defined.

Section TableSection.

Variable lib : Library.

Lemma table_block_str (i : nat) (s : pystr) :
  table_block lib i (JStr s) = Raise AttributeError.
Proof. reflexivity. Qed.

Lemma compact_table_not_list (results : jval) :
  is_list results = false -> truthy results = true ->
  compact_table lib results = Raise TypeError \/
  compact_table lib results = Raise AttributeError.
Proof.
  destruct results as [|b|z|f|s|l|d]; simpl; try discriminate;
    intros _ T; try (left; reflexivity).
  - destruct s as [|c s]; [discriminate T|]. right. reflexivity.
  - destruct d as [|[k v] d]; [discriminate T|]. right. reflexivity.
Qed.


End TableSection.



(** X14.  When the extracted value is truthy and not a list (the
    [results] field holds a string, a number, [true] or a document),
    table mode prints no table: the section ends with an uncaught
    [TypeError] or [AttributeError]. *)
Theorem table_rejects_non_list (lib : Library) (data results : jval) :
  extract_web_results data = Ok results ->
  is_list results = false -> truthy results = true ->
  exists e, main_table lib data = ([], Stop (Uncaught e)) /\
            (e = TypeError \/ e = AttributeError).
Proof.
  intros E L T. unfold main_table. rewrite E. simpl call.
  rewrite pbind_pret, T. simpl negb. cbv iota.
  destruct (compact_table_not_list lib results L T) as [C | C]; rewrite C;
    eexists; split; try reflexivity; auto.
Qed.

Lemma table_rejects_non_list_witness :
  exists e,
    main_table Sample.lib (JObj [(lit "results", JStr (lit "n/a"))])
    = ([], Stop (Uncaught e)) /\
    (e = TypeError \/ e = AttributeError).
Proof.
  apply (@table_rejects_non_list Sample.lib
           (JObj [(lit "results", JStr (lit "n/a"))]) (JStr (lit "n/a")));
    reflexivity.
Defined.

(** X15.  A block depends on six fields of its item only: [title],
    [source], [url], [link], [description] and [snippet].  Two items
    that agree on them give the same block, or fail alike. *)
Theorem table_block_reads_six_fields (lib : Library) (i : nat) (d d' : dict) :
  (forall k, In k item_fields -> lookup k d = lookup k d') ->
  table_block lib i (JObj d) = table_block lib i (JObj d').
Proof.
  intros H.
  assert (T : lookup (lit "title") d = lookup (lit "title") d')
    by (apply H; unfold item_fields; simpl; auto 10).
  assert (S : lookup (lit "source") d = lookup (lit "source") d')
    by (apply H; unfold item_fields; simpl; auto 10).
  assert (U : lookup (lit "url") d = lookup (lit "url") d')
    by (apply H; unfold item_fields; simpl; auto 10).
  assert (L : lookup (lit "link") d = lookup (lit "link") d')
    by (apply H; unfold item_fields; simpl; auto 10).
  assert (D : lookup (lit "description") d = lookup (lit "description") d')
    by (apply H; unfold item_fields; simpl; auto 10).
  assert (N : lookup (lit "snippet") d = lookup (lit "snippet") d')
    by (apply H; unfold item_fields; simpl; auto 10).
  rewrite !table_block_obj.
  unfold title_ok, snippet_of, title_of, url_of, dict_get.
  rewrite T, S, U, L, D, N. reflexivity.
Qed.

Lemma table_block_reads_six_fields_witness :
  table_block Sample.lib 1
    (JObj [(lit "title", JStr (lit "T")); (lit "age", JInt 3)])
  = table_block Sample.lib 1 (JObj [(lit "title", JStr (lit "T"))]).
Proof.
  apply table_block_reads_six_fields.
  intros k H. unfold item_fields in H. simpl in H.
  repeat (destruct H as [H | H]; [subst k; reflexivity|]). destruct H.
Defined.

(** ** Whitespace, continued *)

Lemma split_from_word (w : pystr) :
  forall acc rest,
    forallb (fun c => negb (is_space c)) w = true ->
    split_from acc (w ++ rest) = split_from (acc ++ w) rest.
Proof.
  induction w as [|c w IH]; intros acc rest W; simpl.
  - rewrite app_nil_r. reflexivity.
  - simpl in W. apply andb_true_iff in W. destruct W as [C W].
    apply negb_true_iff in C. rewrite C.
    rewrite IH by exact W. rewrite <- app_assoc. reflexivity.
Qed.

Lemma split_from_space (acc rest : pystr) :
  acc <> [] -> split_from acc (32%N :: rest) = acc :: split_from [] rest.
Proof. intros N. destruct acc; [contradiction | reflexivity]. Qed.

Lemma split_join (words : list pystr) :
  Forall wordlike words -> split (join (lit " ") words) = words.
Proof.
  unfold split. induction 1 as [|w words [N W] F IH]; [reflexivity|].
  destruct words as [|w' words].
  - simpl join. rewrite <- (app_nil_r w), split_from_word by exact W.
    simpl. rewrite app_nil_r. destruct w; [contradiction | reflexivity].
  - change (join (lit " ") (w :: w' :: words))
      with (w ++ 32%N :: join (lit " ") (w' :: words)).
    rewrite split_from_word by exact W. cbn [app].
    rewrite split_from_space by exact N. rewrite IH. reflexivity.
Qed.

Lemma split_blank (s : pystr) :
  forallb is_space s = true -> split s = [].
Proof.
  unfold split. induction s as [|c s IH]; simpl; [reflexivity|].
  intros H. apply andb_true_iff in H. destruct H as [C H].
  rewrite C. apply IH, H.
Qed.

(** X16.  Collapsing the whitespace of a snippet is idempotent and
    keeps the words: splitting the collapsed text gives the words of the
    original, and more generally splitting words joined by single spaces
    gives the words back.  A snippet of whitespace only collapses to the
    empty string. *)
Theorem collapse_round_trip (s : pystr) :
  split (join (lit " ") (split s)) = split s /\
  join (lit " ") (split (join (lit " ") (split s))) = join (lit " ") (split s) /\
  (forall words,
     Forall wordlike words -> split (join (lit " ") words) = words) /\
  (forallb is_space s = true -> join (lit " ") (split s) = []).
Proof.
  assert (R : split (join (lit " ") (split s)) = split s).
  { apply split_join. apply (@split_from_words s []). reflexivity. }
  split; [exact R|]. split; [rewrite R; reflexivity|].
  split; [apply split_join|].
  intros B. rewrite (split_blank s B). reflexivity.
Qed.

Lemma collapse_round_trip_witness :
  join (lit " ") (split [32; 9; 10; 160]%N) = [] /\
  split (join (lit " ") [lit "web"; lit "search"]) = [lit "web"; lit "search"].
Proof.
  destruct (collapse_round_trip [32; 9; 10; 160]%N) as (_ & _ & words & blank).
  split.
  - apply blank. reflexivity.
  - apply words. repeat constructor; discriminate.
Defined.

(** X17.  A truthy [title] is used as it is and [source] is not looked
    at: an item with such a title and a string for its snippet renders
    whatever its [source] holds, document or not. *)
Theorem truthy_title_shields_source (lib : Library) (i : nat) (d : dict)
        (s : pystr) :
  truthy (dict_get d (lit "title") JNull) = true ->
  snippet_of d = JStr s ->
  item_title (JObj d) = Ok (dict_get d (lit "title") JNull) /\
  table_block lib i (JObj d) =
  Ok (block_of lib i (dict_get d (lit "title") JNull) (url_of d) s).
Proof.
  intros T S.
  assert (K : title_ok d = true) by (unfold title_ok; rewrite T; reflexivity).
  assert (V : title_of d = dict_get d (lit "title") JNull)
    by (unfold title_of; rewrite T; reflexivity).
  split.
  - rewrite item_title_obj, K, V. reflexivity.
  - rewrite table_block_obj, K, S, V. reflexivity.
Qed.

Lemma truthy_title_shields_source_witness :
  item_title (JObj [(lit "title", JStr (lit "T"));
                    (lit "source", JStr (lit "news"))])
  = Ok (JStr (lit "T")).
Proof.
  apply (@truthy_title_shields_source Sample.lib 1
           [(lit "title", JStr (lit "T")); (lit "source", JStr (lit "news"))]
           []); reflexivity.
Defined.
